(** * ScholarOS backend: account, test-result, university and question routes

    A shallow embedding of [nodejs_backend.js].  The Express handlers are
    functions in a state-and-exception monad over the four Mongoose
    collections; the Mongoose schemas become records with their
    [required] validators, enumerations and defaults; bcrypt,
    jsonwebtoken and the regular-expression engine of the database are
    interfaces (type classes), as the program only calls them.

    Modelling boundary.  Request fields are modelled at the type the
    schema or the handler expects: a String field is a [string] (a byte
    string, whose letter case is folded for ASCII letters), a Number is
    an integer [Z] of a size that a double holds exactly, an ObjectId is
    a [Z] drawn from a creation counter.  The persistence service is
    assumed reachable: a query throws only where Mongoose or the database
    rejects it (schema validation, the unique index, an invalid regular
    expression, a limit that is not a number). *)

From Stdlib Require Import String Ascii List ZArith Lia Bool.
From Stdlib Require Import Sorting.Sorted Sorting.Permutation.
Import ListNotations.
Local Open Scope string_scope.
Local Open Scope Z_scope.

(** ** JSON values and HTTP responses *)

#[warnings="-register-all"]
Inductive json : Type :=
| JNull
| JBool (b : bool)
| JNum (n : Z)
| JStr (s : string)
| JArr (items : list json)
| JObj (fields : list (string * json)).

Module Json.

(** [o[k]] on an object: the first binding of [k]. *)
Fixpoint lookup (k : string) (fields : list (string * json)) : option json :=
  match fields with
  | [] => None
  | (k', v) :: rest => if String.eqb k k' then Some v else lookup k rest
  end.

Definition get (k : string) (j : json) : option json :=
  match j with
  | JObj fields => lookup k fields
  | _ => None
  end.

Definition has_field (k : string) (j : json) : bool :=
  match get k j with Some _ => true | None => false end.

(** A key whose value is [undefined] is left out by [JSON.stringify]. *)
Definition opt_field (k : string) (v : option json) : list (string * json) :=
  match v with
  | Some j => [(k, j)]
  | None => []
  end.

Definition str_list (l : list string) : json := JArr (map JStr l).

End Json.

Record Response : Type := mkResponse { status : Z; body : json }.

(** [res.status(c).json({ error: msg })] *)
Definition res_error (code : Z) (msg : string) : Response :=
  mkResponse code (JObj [("error", JStr msg)]).

(** [res.json(j)]: status 200. *)
Definition res_json (j : json) : Response := mkResponse 200 j.

(** ** Schemas *)

Definition ObjectId := Z.
Definition Date := Z.

(** [required: true] on a String path: the validator of Mongoose accepts a
    string only if its length is not zero. *)
Definition required_string (s : string) : bool :=
  negb (String.eqb s "").

Module User.
Record t : Type := mk
  { _id : ObjectId;
    name : string;
    email : string;
    password : string;
    role : string;
    createdAt : Date }.

Definition role_enum : list string := ["user"; "admin"].

Definition validate (u : t) : bool :=
  required_string (name u) && required_string (email u)
  && required_string (password u)
  && existsb (String.eqb (role u)) role_enum.
End User.

Module TestResult.
Record t : Type := mk
  { _id : ObjectId;
    userId : ObjectId;
    testType : string;
    section : string;
    score : Z;
    totalQuestions : Z;
    correctAnswers : Z;
    timeSpent : option Z;
    date : Date }.

Definition validate (r : t) : bool :=
  required_string (testType r) && required_string (section r).

Definition toJSON (r : t) : json :=
  JObj ([("_id", JNum (_id r));
         ("userId", JNum (userId r));
         ("testType", JStr (testType r));
         ("section", JStr (section r));
         ("score", JNum (score r));
         ("totalQuestions", JNum (totalQuestions r));
         ("correctAnswers", JNum (correctAnswers r));
         ("timeSpent", match timeSpent r with Some m => JNum m | None => JNull end);
         ("date", JNum (date r))]).
End TestResult.

Module University.
Record requirements_t : Type := mkReq
  { gre : bool; gmat : bool; ielts : bool; toefl : bool }.

Record t : Type := mk
  { _id : ObjectId;
    name : string;
    country : string;
    ranking : option Z;
    tuitionFee : string;
    scholarships : list string;
    requirements : requirements_t;
    description : option string;
    website : option string }.

Definition validate (u : t) : bool :=
  required_string (name u) && required_string (country u)
  && required_string (tuitionFee u).

Definition toJSON (u : t) : json :=
  JObj ([("_id", JNum (_id u));
         ("name", JStr (name u));
         ("country", JStr (country u))]
        ++ Json.opt_field "ranking" (option_map JNum (ranking u))
        ++ [("tuitionFee", JStr (tuitionFee u));
            ("scholarships", Json.str_list (scholarships u));
            ("requirements",
             JObj [("gre", JBool (gre (requirements u)));
                   ("gmat", JBool (gmat (requirements u)));
                   ("ielts", JBool (ielts (requirements u)));
                   ("toefl", JBool (toefl (requirements u)))])]
        ++ Json.opt_field "description" (option_map JStr (description u))
        ++ Json.opt_field "website" (option_map JStr (website u))).
End University.

Module Question.
Record t : Type := mk
  { _id : ObjectId;
    testType : string;
    section : string;
    question : string;
    options : list string;
    correctAnswer : Z;
    explanation : option string;
    difficulty : string }.

Definition difficulty_enum : list string := ["easy"; "medium"; "hard"].

Definition validate (q : t) : bool :=
  required_string (testType q) && required_string (section q)
  && required_string (question q)
  && existsb (String.eqb (difficulty q)) difficulty_enum.

Definition toJSON (q : t) : json :=
  JObj ([("_id", JNum (_id q));
         ("testType", JStr (testType q));
         ("section", JStr (section q));
         ("question", JStr (question q));
         ("options", Json.str_list (options q));
         ("correctAnswer", JNum (correctAnswer q))]
        ++ Json.opt_field "explanation" (option_map JStr (explanation q))
        ++ [("difficulty", JStr (difficulty q))]).
End Question.

(** ** The persistence service and the handler monad *)

(** The four collections, each in insertion order. *)
Record Db : Type := mkDb
  { users : list User.t;
    testResults : list TestResult.t;
    universities : list University.t;
    questions : list Question.t }.

(** The process state: the database and the ObjectId generator, which
    hands out increasing identifiers. *)
Record State : Type := mkState { db : Db; nextId : ObjectId }.

Inductive outcome (A : Type) : Type :=
| Ok (a : A)
| Throw (e : string).
Arguments Ok {A} a.
Arguments Throw {A} e.

Definition M (A : Type) : Type := State -> outcome A * State.

Definition ret {A} (a : A) : M A := fun s => (Ok a, s).

Definition bind {A B} (c : M A) (k : A -> M B) : M B :=
  fun s =>
    match c s with
    | (Ok a, s') => k a s'
    | (Throw e, s') => (Throw e, s')
    end.

Definition throw {A} (e : string) : M A := fun s => (Throw e, s).

Definition get_db : M Db := fun s => (Ok (db s), s).

Definition put_db (d : Db) : M unit :=
  fun s => (Ok tt, mkState d (nextId s)).

(** [new mongoose.Types.ObjectId()] *)
Definition new_ObjectId : M ObjectId :=
  fun s => (Ok (nextId s), mkState (db s) (nextId s + 1)).

Declare Scope handler_scope.
Delimit Scope handler_scope with handler.
Notation "x <- c ;; k" := (bind c (fun x => k))
  (at level 61, c at next level, right associativity) : handler_scope.
Notation "c ;;; k" := (bind c (fun _ => k))
  (at level 61, right associativity) : handler_scope.
Local Open Scope handler_scope.

(** [try { body } catch (error) { res.status(500).json({ error: msg }) }] *)
Definition try_catch (body : M Response) (msg : string) : State -> Response * State :=
  fun s =>
    match body s with
    | (Ok r, s') => (r, s')
    | (Throw _, s') => (res_error 500 msg, s')
    end.

(** ** External services *)

(** bcryptjs.  [bcrypt_hash password rounds salt]: the salt is drawn at
    random on every call, so it is an input here; a hash is never the
    empty string (it is sixty characters long).  On strings
    [bcrypt.compare] never throws: a malformed hash compares false. *)
Class Bcrypt : Type :=
  { bcrypt_hash : string -> Z -> string -> string;
    bcrypt_compare : string -> string -> bool;
    bcrypt_hash_nonempty :
      forall password rounds salt, bcrypt_hash password rounds salt <> "" }.

(** The payload signed into a token and recovered by verification. *)
Record Claims : Type := mkClaims
  { userId : ObjectId; email : string; role : string }.

(** jsonwebtoken.  [jwt_sign payload secret expiresIn now] and
    [jwt_verify token secret now]; [None] is the [err] of the callback
    (bad signature, malformed or expired token). *)
Class Jwt : Type :=
  { jwt_sign : Claims -> string -> Z -> Date -> string;
    jwt_verify : string -> string -> Date -> option Claims }.

(** The regular-expression engine of the database on the patterns that
    [Regex.parse] below does not cover; [Throw] is an invalid pattern. *)
Class Pcre : Type :=
  { pcre_compile : string -> string -> outcome (string -> bool) }.

(** What a request reads from its environment: the clock ([Date.now])
    and the randomness bcrypt draws its salt from. *)
Record Env : Type := mkEnv { now : Date; salt : string }.

Definition JWT_SECRET : string := "your-secret-key-change-in-production".

(** ** JavaScript helpers *)

(** A JavaScript number as the handlers meet it: an integer or NaN. *)
Inductive jsnum : Type :=
| Num (n : Z)
| NaN.

(** Truthiness of an optional string: [undefined] and [""] are falsy. *)
Definition truthy (v : option string) : option string :=
  match v with
  | Some s => if String.eqb s "" then None else Some s
  | None => None
  end.

Module Js.

(** [s.split(sep)] for a one-character separator. *)
Fixpoint split_acc (sep : ascii) (cur : string) (s : string) : list string :=
  match s with
  | EmptyString => [cur]
  | String c rest =>
      if Ascii.eqb c sep then cur :: split_acc sep EmptyString rest
      else split_acc sep (cur ++ String c EmptyString) rest
  end.

Definition split (sep : ascii) (s : string) : list string :=
  split_acc sep EmptyString s.

Definition is_space (c : ascii) : bool :=
  let n := nat_of_ascii c in
  (Nat.leb 9 n && Nat.leb n 13) || Nat.eqb n 32.

Fixpoint trim_start (s : string) : string :=
  match s with
  | String c rest => if is_space c then trim_start rest else s
  | EmptyString => s
  end.

(** The value of a digit in the given radix. *)
Definition digit_value (radix : Z) (c : ascii) : option Z :=
  let n := Z.of_nat (nat_of_ascii c) in
  let v :=
    if (48 <=? n) && (n <=? 57) then Some (n - 48)
    else if (97 <=? n) && (n <=? 122) then Some (n - 87)
    else if (65 <=? n) && (n <=? 90) then Some (n - 55)
    else None in
  match v with
  | Some d => if d <? radix then Some d else None
  | None => None
  end.

(** The longest prefix of digits, accumulated left to right. *)
Fixpoint digits (radix : Z) (acc : option Z) (s : string) : option Z :=
  match s with
  | EmptyString => acc
  | String c rest =>
      match digit_value radix c with
      | Some d =>
          digits radix
            (Some (match acc with Some a => a * radix + d | None => d end))
            rest
      | None => acc
      end
  end.

Definition strip_hex_prefix (s : string) : option string :=
  match s with
  | String "0" (String "x" rest) => Some rest
  | String "0" (String "X" rest) => Some rest
  | _ => None
  end.

Definition unsigned (s : string) : jsnum :=
  let r :=
    match strip_hex_prefix s with
    | Some rest => digits 16 None rest
    | None => digits 10 None s
    end in
  match r with
  | Some n => Num n
  | None => NaN
  end.

(** [parseInt(s)] with no radix argument. *)
Definition parseInt (s : string) : jsnum :=
  match trim_start s with
  | String "-" rest =>
      match unsigned rest with Num n => Num (- n) | NaN => NaN end
  | String "+" rest => unsigned rest
  | t => unsigned t
  end.

(** A quotient of integers, before rounding. *)
Record ratio : Type := mkRatio { numer : Z; denom : Z }.

(** [Math.round]: the nearest integer, a tie going up. *)
Definition Math_round (q : ratio) : Z :=
  (2 * numer q + denom q) / (2 * denom q).

(** [v === n] for a stored number [n] and a JSON value [v]. *)
Definition strict_eq_num (n : Z) (v : json) : bool :=
  match v with
  | JNum m => Z.eqb n m
  | _ => false
  end.

End Js.

(** ** Regular expressions: the fragment modelled in full

    Patterns made of ordinary characters, [.] and backslash-escaped
    punctuation, matched byte by byte against ASCII text.  Every other
    pattern (quantifiers, classes, groups, anchors, alternation) is left
    to the [Pcre] interface. *)

Module Regex.

Inductive atom : Type :=
| Lit (c : ascii)
| AnyChar.

Definition metachars : list ascii :=
  list_ascii_of_string "\^$.[|()?*+{".

Definition is_meta (c : ascii) : bool :=
  existsb (Ascii.eqb c) metachars.

Definition is_alnum (c : ascii) : bool :=
  let n := nat_of_ascii c in
  (Nat.leb 48 n && Nat.leb n 57) || (Nat.leb 65 n && Nat.leb n 90)
  || (Nat.leb 97 n && Nat.leb n 122).

(** A pattern of ordinary characters, [.] and backslash-escaped
    punctuation; [None] for every other pattern. *)
Fixpoint parse (p : string) : option (list atom) :=
  match p with
  | EmptyString => Some []
  | String c rest =>
      if Ascii.eqb c "." then option_map (cons AnyChar) (parse rest)
      else if Ascii.eqb c "\" then
        match rest with
        | String d rest' =>
            if is_alnum d then None
            else option_map (cons (Lit d)) (parse rest')
        | EmptyString => None
        end
      else if is_meta c then None
      else option_map (cons (Lit c)) (parse rest)
  end.

Definition to_lower (c : ascii) : ascii :=
  let n := nat_of_ascii c in
  if Nat.leb 65 n && Nat.leb n 90 then ascii_of_nat (n + 32) else c.

Definition lower (s : string) : string :=
  string_of_list_ascii (map to_lower (list_ascii_of_string s)).

Definition newline : ascii := ascii_of_nat 10.

Definition atom_match (caseless : bool) (a : atom) (c : ascii) : bool :=
  match a with
  | Lit d =>
      if caseless then Ascii.eqb (to_lower d) (to_lower c) else Ascii.eqb d c
  | AnyChar => negb (Ascii.eqb c newline)
  end.

Fixpoint match_here (caseless : bool) (p : list atom) (s : string) : bool :=
  match p with
  | [] => true
  | a :: p' =>
      match s with
      | String c s' => atom_match caseless a c && match_here caseless p' s'
      | EmptyString => false
      end
  end.

(** An unanchored match: the pattern matches at some position. *)
Fixpoint search (caseless : bool) (p : list atom) (s : string) : bool :=
  match_here caseless p s
  || match s with
     | String _ s' => search caseless p s'
     | EmptyString => false
     end.

Definition has_option (o : ascii) (options : string) : bool :=
  existsb (Ascii.eqb o) (list_ascii_of_string options).

(** [{ $regex: pattern, $options: options }] as a predicate on names. *)
Definition compile `{Pcre} (pattern options : string) : outcome (string -> bool) :=
  match parse pattern with
  | Some atoms => Ok (search (has_option "i" options) atoms)
  | None => pcre_compile pattern options
  end.

End Regex.

(** ** Mongoose queries *)

Module Query.

(** [sort]: a stable insertion sort under a boolean order. *)
Fixpoint insert_by {D} (le : D -> D -> bool) (x : D) (l : list D) : list D :=
  match l with
  | [] => [x]
  | y :: rest => if le x y then x :: l else y :: insert_by le x rest
  end.

Fixpoint sort_by {D} (le : D -> D -> bool) (l : list D) : list D :=
  match l with
  | [] => []
  | x :: rest => insert_by le x (sort_by le rest)
  end.

(** A query under construction: [Model.find(filter)] and the options
    that [.sort], [.limit] and [.select] record on it.  The order in
    which the options are chained does not matter: they are applied
    when the query is awaited. *)
Record t (D : Type) : Type := mk
  { coll : list D;
    conditions : D -> bool;
    sort_opt : option (D -> D -> bool);
    limit_opt : option jsnum;
    excluded : list string }.
Arguments mk {D}.
Arguments coll {D}.
Arguments conditions {D}.
Arguments sort_opt {D}.
Arguments limit_opt {D}.
Arguments excluded {D}.

Definition find {D} (c : list D) (filter : D -> bool) : t D :=
  mk c filter None None [].

Definition sort {D} (le : D -> D -> bool) (q : t D) : t D :=
  mk (coll q) (conditions q) (Some le) (limit_opt q) (excluded q).

Definition limit {D} (n : jsnum) (q : t D) : t D :=
  mk (coll q) (conditions q) (sort_opt q) (Some n) (excluded q).

(** [.select('-a -b')]: the named paths are left out of the result. *)
Definition select_out {D} (paths : list string) (q : t D) : t D :=
  mk (coll q) (conditions q) (sort_opt q) (limit_opt q) paths.

(** The cursor limit of the database: 0 is no limit, a negative limit
    [-n] returns at most [n] documents. *)
Definition apply_limit {D} (n : Z) (l : list D) : list D :=
  if Z.eqb n 0 then l else firstn (Z.abs_nat n) l.

(** Awaiting the query: match, sort, then limit. *)
Definition exec {D} (q : t D) : M (list D) :=
  let matched := filter (conditions q) (coll q) in
  let sorted :=
    match sort_opt q with
    | Some le => sort_by le matched
    | None => matched
    end in
  match limit_opt q with
  | None => ret sorted
  | Some (Num n) => ret (apply_limit n sorted)
  | Some NaN => throw "CastError: limit"
  end.

(** The projection, on the serialised document. *)
Definition project (paths : list string) (j : json) : json :=
  match j with
  | JObj fields =>
      JObj (filter (fun kv => negb (existsb (String.eqb (fst kv)) paths)) fields)
  | _ => j
  end.

(** Awaiting a query whose result is sent as JSON. *)
Definition exec_json {D} (toJSON : D -> json) (q : t D) : M (list json) :=
  bind (exec q) (fun docs => ret (map (fun d => project (excluded q) (toJSON d)) docs)).

Definition findOne {D} (c : list D) (filter : D -> bool) : M (option D) :=
  ret (List.find filter c).

Definition countDocuments {D} (c : list D) (filter : D -> bool) : M Z :=
  ret (Z.of_nat (length (List.filter filter c))).

End Query.

(** Sort keys.  [{ date: -1 }], [{ _id: -1 }] are descending; in
    [{ ranking: 1 }] a document with no ranking sorts before every
    number. *)
Definition date_desc (a b : TestResult.t) : bool :=
  TestResult.date b <=? TestResult.date a.

Definition id_desc (a b : Question.t) : bool :=
  Question._id b <=? Question._id a.

Definition opt_leb (a b : option Z) : bool :=
  match a, b with
  | None, _ => true
  | Some _, None => false
  | Some x, Some y => x <=? y
  end.

Definition ranking_asc (a b : University.t) : bool :=
  opt_leb (University.ranking a) (University.ranking b).

(** ** Saving documents *)

Definition set_users (d : Db) (l : list User.t) : Db :=
  mkDb l (testResults d) (universities d) (questions d).
Definition set_testResults (d : Db) (l : list TestResult.t) : Db :=
  mkDb (users d) l (universities d) (questions d).
Definition set_universities (d : Db) (l : list University.t) : Db :=
  mkDb (users d) (testResults d) l (questions d).
Definition set_questions (d : Db) (l : list Question.t) : Db :=
  mkDb (users d) (testResults d) (universities d) l.

(** [user.save()]: schema validation, then the insert under the unique
    index on [email]. *)
Definition save_user (u : User.t) : M unit :=
  d <- get_db ;;
  if negb (User.validate u) then throw "ValidationError"
  else if existsb (fun v => String.eqb (User.email v) (User.email u)) (users d)
  then throw "E11000 duplicate key"
  else put_db (set_users d (users d ++ [u])).

Definition save_testResult (r : TestResult.t) : M unit :=
  d <- get_db ;;
  if negb (TestResult.validate r) then throw "ValidationError"
  else put_db (set_testResults d (testResults d ++ [r])).

Definition save_university (u : University.t) : M unit :=
  d <- get_db ;;
  if negb (University.validate u) then throw "ValidationError"
  else put_db (set_universities d (universities d ++ [u])).

(** ** Request bodies *)

Record RegisterBody : Type := mkRegisterBody
  { rb_name : string; rb_email : string; rb_password : string }.

Record LoginBody : Type := mkLoginBody
  { lb_email : string; lb_password : string }.

Record TestResultBody : Type := mkTestResultBody
  { tb_testType : string;
    tb_section : string;
    tb_score : Z;
    tb_totalQuestions : Z;
    tb_correctAnswers : Z;
    tb_timeSpent : option Z }.

(** The body of an add-university request; a requirement flag that is
    absent takes the schema's default. *)
Record UniversityBody : Type := mkUniversityBody
  { ub_name : string;
    ub_country : string;
    ub_ranking : option Z;
    ub_tuitionFee : string;
    ub_scholarships : list string;
    ub_gre : option bool;
    ub_gmat : option bool;
    ub_ielts : option bool;
    ub_toefl : option bool;
    ub_description : option string;
    ub_website : option string }.

Record CheckAnswerBody : Type := mkCheckAnswerBody
  { cb_questionId : ObjectId; cb_userAnswer : json }.

Definition default {A} (d : A) (v : option A) : A :=
  match v with Some a => a | None => d end.

(** [new University(req.body)] *)
Definition new_University (b : UniversityBody) : M University.t :=
  id <- new_ObjectId ;;
  ret (University.mk id (ub_name b) (ub_country b) (ub_ranking b)
         (ub_tuitionFee b) (ub_scholarships b)
         (University.mkReq (default false (ub_gre b)) (default false (ub_gmat b))
            (default false (ub_ielts b)) (default false (ub_toefl b)))
         (ub_description b) (ub_website b)).

Record QuestionBody : Type := mkQuestionBody
  { qb_testType : string;
    qb_section : string;
    qb_question : string;
    qb_options : list string;
    qb_correctAnswer : Z;
    qb_explanation : option string;
    qb_difficulty : option string }.

Definition new_Question (b : QuestionBody) : M Question.t :=
  id <- new_ObjectId ;;
  ret (Question.mk id (qb_testType b) (qb_section b) (qb_question b)
         (qb_options b) (qb_correctAnswer b) (qb_explanation b)
         (default "medium" (qb_difficulty b))).

Fixpoint mapM {A B} (f : A -> M B) (l : list A) : M (list B) :=
  match l with
  | [] => ret []
  | a :: rest =>
      b <- f a ;;
      bs <- mapM f rest ;;
      ret (b :: bs)
  end.

(** [Model.insertMany(docs)]: every document is validated before any is
    written. *)
Definition insertMany_universities (bodies : list UniversityBody) : M unit :=
  docs <- mapM new_University bodies ;;
  d <- get_db ;;
  if forallb University.validate docs
  then put_db (set_universities d (universities d ++ docs))
  else throw "ValidationError".

Definition insertMany_questions (bodies : list QuestionBody) : M unit :=
  docs <- mapM new_Question bodies ;;
  d <- get_db ;;
  if forallb Question.validate docs
  then put_db (set_questions d (questions d ++ docs))
  else throw "ValidationError".

(** ** The routes *)

Definition Handler : Type := State -> Response * State.

Definition created (fields : list (string * json)) : Response :=
  mkResponse 201 (JObj fields).

Section Routes.

Context {bcrypt : Bcrypt} {jwt : Jwt} {pcre : Pcre}.

(** [authHeader && authHeader.split(' ')[1]], then the test [!token]. *)
Definition bearer_token (authHeader : option string) : option string :=
  match truthy authHeader with
  | Some h => truthy (nth_error (Js.split " " h) 1)
  | None => None
  end.

(** The guard of the protected routes; [next] is the route's handler,
    run with [req.user] set to the verified claims. *)
Definition authenticateToken (env : Env) (authHeader : option string)
    (next : Claims -> Handler) : Handler :=
  match bearer_token authHeader with
  | None => fun s => (res_error 401 "Access token required", s)
  | Some token =>
      match jwt_verify token JWT_SECRET (now env) with
      | None => fun s => (res_error 403 "Invalid or expired token", s)
      | Some user => next user
      end
  end.

(** POST /api/register *)
Definition register (env : Env) (b : RegisterBody) : Handler :=
  try_catch
    (d <- get_db ;;
     existingUser <-
       Query.findOne (users d) (fun u => String.eqb (User.email u) (rb_email b)) ;;
     match existingUser with
     | Some _ => ret (res_error 400 "User already exists")
     | None =>
         let saltRounds := 10 in
         let hashedPassword := bcrypt_hash (rb_password b) saltRounds (salt env) in
         id <- new_ObjectId ;;
         let user :=
           User.mk id (rb_name b) (rb_email b) hashedPassword "user" (now env) in
         save_user user ;;;
         ret (created [("message", JStr "User registered successfully")])
     end)
    "Server error during registration".

(** POST /api/login *)
Definition login (env : Env) (b : LoginBody) : Handler :=
  try_catch
    (d <- get_db ;;
     found <-
       Query.findOne (users d) (fun u => String.eqb (User.email u) (lb_email b)) ;;
     match found with
     | None => ret (res_error 400 "Invalid credentials")
     | Some user =>
         let isValidPassword := bcrypt_compare (lb_password b) (User.password user) in
         if negb isValidPassword then ret (res_error 400 "Invalid credentials")
         else
           let token :=
             jwt_sign
               (mkClaims (User._id user) (User.email user) (User.role user))
               JWT_SECRET (24 * 3600) (now env) in
           ret (res_json
                  (JObj [("token", JStr token);
                         ("user",
                          JObj [("id", JNum (User._id user));
                                ("name", JStr (User.name user));
                                ("email", JStr (User.email user));
                                ("role", JStr (User.role user))])]))
     end)
    "Server error during login".

(** POST /api/test-results *)
Definition postTestResult (env : Env) (authHeader : option string)
    (b : TestResultBody) : Handler :=
  authenticateToken env authHeader (fun user =>
    try_catch
      (id <- new_ObjectId ;;
       let testResult :=
         TestResult.mk id (userId user) (tb_testType b) (tb_section b)
           (tb_score b) (tb_totalQuestions b) (tb_correctAnswers b)
           (Some (default 0 (tb_timeSpent b))) (now env) in
       save_testResult testResult ;;;
       ret (created [("message", JStr "Test result saved successfully");
                     ("result", TestResult.toJSON testResult)]))
      "Error saving test result").

Definition owned_by (uid : ObjectId) (r : TestResult.t) : bool :=
  TestResult.userId r =? uid.

(** GET /api/test-results *)
Definition getTestResults (env : Env) (authHeader : option string) : Handler :=
  authenticateToken env authHeader (fun user =>
    try_catch
      (d <- get_db ;;
       results <-
         Query.exec
           (Query.limit (Num 10)
              (Query.sort date_desc
                 (Query.find (testResults d) (owned_by (userId user))))) ;;
       ret (res_json (JArr (map TestResult.toJSON results))))
      "Error fetching test results").

(** [x || 0] on a stored number. *)
Definition or_zero (v : option Z) : Z := default 0 v.

(** GET /api/dashboard-stats *)
Definition getDashboardStats (env : Env) (authHeader : option string) : Handler :=
  authenticateToken env authHeader (fun user =>
    try_catch
      (d <- get_db ;;
       let userId := userId user in
       totalTests <- Query.countDocuments (testResults d) (owned_by userId) ;;
       results <- Query.exec (Query.find (testResults d) (owned_by userId)) ;;
       let avgScore :=
         if (0 <? length results)%nat
         then Js.mkRatio
                (fold_left (fun sum result => sum + TestResult.score result) results 0)
                (Z.of_nat (length results))
         else Js.mkRatio 0 1 in
       let totalStudyTime :=
         fold_left (fun sum result => sum + or_zero (TestResult.timeSpent result))
           results 0 in
       ret (res_json
              (JObj [("testsCompleted", JNum totalTests);
                     ("averageScore", JNum (Js.Math_round avgScore));
                     ("totalStudyTime",
                      JNum (Js.Math_round (Js.mkRatio totalStudyTime 1)))])))
      "Error fetching dashboard stats").

(** The filter object of GET /api/universities. *)
Record UniversityFilter : Type := mkUniversityFilter
  { f_country : option string;
    f_name : option (string * string) }.

(** [University.find(filter)]: the regular expression is compiled once;
    an invalid one makes the query throw. *)
Definition find_universities (f : UniversityFilter) : M (Query.t University.t) :=
  d <- get_db ;;
  name_ok <-
    match f_name f with
    | Some (pattern, options) =>
        match Regex.compile pattern options with
        | Ok m => ret m
        | Throw e => throw e
        end
    | None => ret (fun _ : string => true)
    end ;;
  let country_ok u :=
    match f_country f with
    | Some c => String.eqb (University.country u) c
    | None => true
    end in
  ret (Query.find (universities d)
         (fun u => country_ok u && name_ok (University.name u))).

(** GET /api/universities *)
Definition getUniversities (country search : option string) : Handler :=
  try_catch
    (let filter :=
       mkUniversityFilter (truthy country)
         (option_map (fun s => (s, "i")) (truthy search)) in
     q <- find_universities filter ;;
     universities <- Query.exec (Query.sort ranking_asc q) ;;
     ret (res_json (JArr (map University.toJSON universities))))
    "Error fetching universities".

(** POST /api/universities *)
Definition postUniversity (env : Env) (authHeader : option string)
    (b : UniversityBody) : Handler :=
  authenticateToken env authHeader (fun user =>
    if negb (String.eqb (role user) "admin")
    then fun s => (res_error 403 "Admin access required", s)
    else
      try_catch
        (university <- new_University b ;;
         save_university university ;;;
         ret (created [("message", JStr "University added successfully");
                       ("university", University.toJSON university)]))
        "Error adding university").

(** GET /api/questions/:testType/:section *)
Definition getQuestions (testType section : string)
    (limit difficulty : option string) : Handler :=
  try_catch
    (d <- get_db ;;
     let limit :=
       match limit with
       | Some s => Js.parseInt s
       | None => Num 10
       end in
     let filter q :=
       String.eqb (Question.testType q) testType
       && String.eqb (Question.section q) section
       && match truthy difficulty with
          | Some x => String.eqb (Question.difficulty q) x
          | None => true
          end in
     questions <-
       Query.exec_json Question.toJSON
         (Query.sort id_desc
            (Query.limit limit
               (Query.select_out ["correctAnswer"; "explanation"]
                  (Query.find (questions d) filter)))) ;;
     ret (res_json (JArr questions)))
    "Error fetching questions".

(** POST /api/check-answer *)
Definition checkAnswer (b : CheckAnswerBody) : Handler :=
  try_catch
    (d <- get_db ;;
     found <-
       Query.findOne (questions d) (fun q => Question._id q =? cb_questionId b) ;;
     match found with
     | None => ret (res_error 404 "Question not found")
     | Some question =>
         let isCorrect :=
           Js.strict_eq_num (Question.correctAnswer question) (cb_userAnswer b) in
         ret (res_json
                (JObj ([("correct", JBool isCorrect);
                        ("correctAnswer", JNum (Question.correctAnswer question))]
                       ++ Json.opt_field "explanation"
                            (option_map JStr (Question.explanation question)))))
     end)
    "Error checking answer".

End Routes.

(** ** Sample data *)

Definition seed_universities : list UniversityBody :=
  [ mkUniversityBody "Harvard University" "USA" (Some 1) "$54,002/year"
      ["Need-based aid up to $75,000"; "Merit scholarships"]
      (Some true) None None (Some true)
      (Some "Ivy League university in Cambridge, Massachusetts")
      (Some "https://harvard.edu");
    mkUniversityBody "Stanford University" "USA" (Some 2) "$56,169/year"
      ["Knight-Hennessy Scholars Program"; "Stanford Graduate Fellowship"]
      (Some true) None None (Some true)
      (Some "Private research university in California")
      (Some "https://stanford.edu");
    mkUniversityBody "Oxford University" "UK" (Some 3) "£28,370/year"
      ["Rhodes Scholarship"; "Clarendon Fund"]
      (Some false) None (Some true) None
      (Some "Collegiate research university in Oxford, England")
      (Some "https://ox.ac.uk") ].

Definition seed_questions : list QuestionBody :=
  [ mkQuestionBody "GRE" "Verbal"
      "The speaker's argument was so _______ that even her most ardent supporters began to question her position."
      ["compelling"; "persuasive"; "unconvincing"; "articulate"] 2
      (Some "The context suggests supporters are questioning her position, indicating the argument was unconvincing.")
      (Some "medium");
    mkQuestionBody "GRE" "Quantitative"
      "If x + y = 10 and x - y = 4, what is the value of x?"
      ["3"; "5"; "7"; "9"] 2
      (Some "Solving the system: x + y = 10, x - y = 4. Adding equations: 2x = 14, so x = 7.")
      (Some "easy") ].

(** POST /api/seed-data *)
Definition seedData : Handler :=
  try_catch
    (insertMany_universities seed_universities ;;;
     insertMany_questions seed_questions ;;;
     ret (res_json (JObj [("message", JStr "Sample data seeded successfully")])))
    "Error seeding data".

(** ** Instances of the services for running the model *)

Module Demo.

Fixpoint ends_with (suffix s : string) : bool :=
  String.eqb suffix s
  || match s with
     | String _ rest => ends_with suffix rest
     | EmptyString => false
     end.

(** A stand-in for bcrypt: the digest keeps the salt and the password
    apart; it has the interface of bcrypt, not its strength. *)
Definition hash (password : string) (rounds : Z) (salt : string) : string :=
  "$2a$" ++ salt ++ "$" ++ password.

Definition compare (password digest : string) : bool :=
  String.prefix "$2a$" digest && ends_with ("$" ++ password) digest.

#[export] Instance bcrypt : Bcrypt.
Proof.
  refine {| bcrypt_hash := hash; bcrypt_compare := compare |}.
  intros password rounds salt. unfold hash. simpl. discriminate.
Defined.

Definition alice : Claims := mkClaims 1 "alice@example.com" "user".
Definition bob : Claims := mkClaims 2 "bob@example.com" "user".
Definition root : Claims := mkClaims 3 "root@example.com" "admin".

(** A stand-in for jsonwebtoken: three known tokens, valid for a day
    from time 0. *)
Definition sign (c : Claims) (secret : string) (expiresIn : Z) (now : Date) : string :=
  email c ++ ".token".

Definition verify (token secret : string) (now : Date) : option Claims :=
  if negb (String.eqb secret JWT_SECRET) then None
  else if 24 * 3600 * 1000 <? now then None
  else if String.eqb token "alice@example.com.token" then Some alice
  else if String.eqb token "bob@example.com.token" then Some bob
  else if String.eqb token "root@example.com.token" then Some root
  else None.

#[export] Instance jwt : Jwt := {| jwt_sign := sign; jwt_verify := verify |}.

(** No pattern beyond the modelled fragment is accepted. *)
#[export] Instance pcre : Pcre :=
  {| pcre_compile := fun _ _ => Throw "unsupported pattern" |}.

Definition empty : State := mkState (mkDb [] [] [] []) 1.

Definition env0 : Env := mkEnv 1000 "c2FsdA".

(** The database after the sample data has been seeded. *)
Definition seeded : State := snd (seedData empty).

Definition bearer (token : string) : option string := Some ("Bearer " ++ token).

Definition result (id uid score minutes : Z) (date : Date) : TestResult.t :=
  TestResult.mk id uid "GRE" "Verbal" score 1 1 (Some minutes) date.

(** Two results of alice and one of bob. *)
Definition with_results : State :=
  mkState (mkDb [] [result 10 1 80 2 500; result 11 2 40 5 600; result 12 1 90 3 700]
             [] [])
    13.

Definition alice_body : RegisterBody :=
  mkRegisterBody "Alice" "alice@example.com" "s3cret".

(** The state after alice has registered. *)
Definition alice_registered : State := snd (register env0 alice_body empty).

(** A registration with an empty name. *)
Definition nameless_body : RegisterBody := mkRegisterBody "" "a@b.c" "pw".

Definition mit : UniversityBody :=
  mkUniversityBody "MIT" "USA" (Some 4) "$57,986/year" [] (Some true) None None
    (Some true) None (Some "https://mit.edu").

(** An add-university body with an empty name. *)
Definition nameless_university : UniversityBody :=
  mkUniversityBody "" "USA" None "$1/year" [] None None None None None None.

(** The seeded universities called Oxford University. *)
Definition oxford : list University.t :=
  filter (fun u => String.eqb (University.name u) "Oxford University")
    (universities (db seeded)).

End Demo.

(** ** Vocabulary of the specification *)

(** The answers of the account routes. *)
Definition conflict : Response := res_error 400 "User already exists".

Definition registered : Response :=
  created [("message", JStr "User registered successfully")].

Definition invalid_credentials : Response := res_error 400 "Invalid credentials".

(** The document that [new University(req.body)] builds in state [s]. *)
Definition university_of (b : UniversityBody) (s : State) : University.t :=
  University.mk (nextId s) (ub_name b) (ub_country b) (ub_ranking b)
    (ub_tuitionFee b) (ub_scholarships b)
    (University.mkReq (default false (ub_gre b)) (default false (ub_gmat b))
       (default false (ub_ielts b)) (default false (ub_toefl b)))
    (ub_description b) (ub_website b).

(** The required fields of a university are present. *)
Definition complete (b : UniversityBody) : Prop :=
  ub_name b <> "" /\ ub_country b <> "" /\ ub_tuitionFee b <> "".

(** The limit a list-questions request asks for: [parseInt(limit)], with
    10 for a request that names none. *)
Definition requested_limit (limit : option string) : jsnum :=
  match limit with
  | Some s => Js.parseInt s
  | None => Num 10
  end.

(** The answer to a check-answer request for a stored question. *)
Definition graded (q : Question.t) (correct : bool) : Response :=
  res_json
    (JObj ([("correct", JBool correct);
            ("correctAnswer", JNum (Question.correctAnswer q))]
           ++ Json.opt_field "explanation"
                (option_map JStr (Question.explanation q)))).

(** [a] is ranked no later than [b]; a university without ranking comes
    before every ranked one. *)
Definition by_ranking (a b : University.t) : Prop :=
  opt_leb (University.ranking a) (University.ranking b) = true.

(** An account with the given email is stored. *)
Definition email_taken (e : string) (s : State) : Prop :=
  exists u, In u (users (db s)) /\ User.email u = e.

(** The sum of a list of numbers, as the specification words it. *)
Definition sum_of (l : list Z) : Z := fold_right Z.add 0 l.

(** [needle] occurs in [hay] as a substring, letter case ignored, as the
    specification words the name search. *)
Definition contains_ci (needle hay : string) : Prop :=
  exists before after : list ascii,
    map Regex.to_lower (list_ascii_of_string hay)
    = (before ++ map Regex.to_lower (list_ascii_of_string needle) ++ after)%list.

(** A search string with no character that is special in a regular
    expression. *)
Definition plain (pattern : string) : bool :=
  forallb (fun c => negb (Regex.is_meta c)) (list_ascii_of_string pattern).

(** The results of one account, as [TestResult.find({ userId })] returns
    them. *)
Definition results_of (uid : ObjectId) (s : State) : list TestResult.t :=
  filter (owned_by uid) (testResults (db s)).

(** What a question looks like in a list-questions response. *)
Definition public_question (q : Question.t) : json :=
  Query.project ["correctAnswer"; "explanation"] (Question.toJSON q).

(** ** The route table

    One constructor for each [app.post] and [app.get] registration, with
    the parts of the request its handler reads. *)

Inductive Request : Type :=
| PostRegister (b : RegisterBody)
| PostLogin (b : LoginBody)
| PostTestResults (authHeader : option string) (b : TestResultBody)
| GetTestResults (authHeader : option string)
| GetDashboardStats (authHeader : option string)
| GetUniversities (country search : option string)
| PostUniversities (authHeader : option string) (b : UniversityBody)
| GetQuestions (testType section : string) (limit difficulty : option string)
| PostCheckAnswer (b : CheckAnswerBody)
| PostSeedData.

Section App.

Context {bcrypt : Bcrypt} {jwt : Jwt} {pcre : Pcre}.

Definition app (env : Env) (r : Request) : Handler :=
  match r with
  | PostRegister b => register env b
  | PostLogin b => login env b
  | PostTestResults authHeader b => postTestResult env authHeader b
  | GetTestResults authHeader => getTestResults env authHeader
  | GetDashboardStats authHeader => getDashboardStats env authHeader
  | GetUniversities country search => getUniversities country search
  | PostUniversities authHeader b => postUniversity env authHeader b
  | GetQuestions testType section limit difficulty =>
      getQuestions testType section limit difficulty
  | PostCheckAnswer b => checkAnswer b
  | PostSeedData => seedData
  end.

(** The state after a sequence of requests, served one after the other. *)
Fixpoint serve (requests : list (Env * Request)) (s : State) : State :=
  match requests with
  | [] => s
  | (env, r) :: rest => serve rest (snd (app env r s))
  end.

End App.

(** Requests that only read. *)
Definition read_only (r : Request) : bool :=
  match r with
  | PostLogin _ | GetTestResults _ | GetDashboardStats _ | GetUniversities _ _
  | GetQuestions _ _ _ _ | PostCheckAnswer _ => true
  | _ => false
  end.

(** ** Invariants of the database *)

(** No two accounts share an email. *)
Definition unique_emails (s : State) : Prop :=
  NoDup (map User.email (users (db s))).

(** Every stored document passes the validators of its schema. *)
Definition schema_valid (s : State) : Prop :=
  Forall (fun u => User.validate u = true) (users (db s))
  /\ Forall (fun r => TestResult.validate r = true) (testResults (db s))
  /\ Forall (fun u => University.validate u = true) (universities (db s))
  /\ Forall (fun q => Question.validate q = true) (questions (db s)).

(** No account is an administrator. *)
Definition no_admin (s : State) : Prop :=
  Forall (fun u => User.role u = "user") (users (db s)).

(** [s'] holds every document of [s], unchanged and in the same order,
    followed by the documents added since. *)
Definition extends (s s' : State) : Prop :=
  (exists added, users (db s') = (users (db s) ++ added)%list)
  /\ (exists added, testResults (db s') = (testResults (db s) ++ added)%list)
  /\ (exists added, universities (db s') = (universities (db s) ++ added)%list)
  /\ (exists added, questions (db s') = (questions (db s) ++ added)%list).

(** ** The browser client ([updated_frontend_js.js]) *)

Module Client.

(** The page-level variables [currentUser] and [authToken]. *)
Record t : Type := mk { currentUser : option json; authToken : option string }.

(** The [Authorization] header of [apiCall]: set only when [authToken]
    is truthy. *)
Definition authorization (c : t) : option string :=
  match truthy (authToken c) with
  | Some token => Some ("Bearer " ++ token)
  | None => None
  end.

(** Truthiness of a property of a parsed JSON object. *)
Definition json_truthy (v : option json) : bool :=
  match v with
  | None => false
  | Some JNull => false
  | Some (JBool b) => b
  | Some (JNum n) => negb (Z.eqb n 0)
  | Some (JStr s) => negb (String.eqb s "")
  | Some (JArr _) => true
  | Some (JObj _) => true
  end.

(** [response.ok]: a status from 200 to 299. *)
Definition ok (r : Response) : bool :=
  (200 <=? status r) && (status r <=? 299).

(** The outcome of [apiCall] on the response of the server: the parsed
    body, or the value thrown as [Error], [result.error || 'API call
    failed']. *)
Definition apiCall_outcome (r : Response) : json + json :=
  if ok r then inl (body r)
  else
    inr (if json_truthy (Json.get "error" (body r))
         then default JNull (Json.get "error" (body r))
         else JStr "API call failed").

(** The login form on success: [currentUser = response.user] and
    [authToken = response.token]. *)
Definition after_login (response : json) : t :=
  mk (Json.get "user" response)
     (match Json.get "token" response with
      | Some (JStr token) => Some token
      | _ => None
      end).

Definition logout (c : t) : t := mk None None.

(** [l.join(sep)] *)
Definition join (sep : string) (l : list string) : string :=
  match l with
  | [] => ""
  | x :: rest => fold_left (fun acc y => acc ++ sep ++ y) rest x
  end.

Definition push_if (flag : bool) (test : string) (tests : list string) : list string :=
  if flag then (tests ++ [test])%list else tests.

(** [getRequirements(req)] *)
Definition getRequirements (req : University.requirements_t) : string :=
  let tests := [] in
  let tests := push_if (University.gre req) "GRE" tests in
  let tests := push_if (University.gmat req) "GMAT" tests in
  let tests := push_if (University.ielts req) "IELTS" tests in
  let tests := push_if (University.toefl req) "TOEFL" tests in
  let joined := join ", " tests in
  if String.eqb joined "" then "Check website" else joined.

(** The answer sent by [submitAnswer]: [parseInt] of the option index,
    as [JSON.stringify] writes it (NaN becomes null). *)
Definition userAnswer (optionIndex : string) : json :=
  match Js.parseInt optionIndex with
  | Num n => JNum n
  | NaN => JNull
  end.

(** The test result that [submitAnswer] saves after a graded answer. *)
Definition quiz_result (response : json) : TestResultBody :=
  let correct := json_truthy (Json.get "correct" response) in
  mkTestResultBody "GRE" "Verbal" (if correct then 100 else 0) 1
    (if correct then 1 else 0) (Some 2).

End Client.

(** ** Named parts of the handlers *)

(** The public profile that a successful login returns. *)
Definition profile (u : User.t) : json :=
  JObj [("id", JNum (User._id u));
        ("name", JStr (User.name u));
        ("email", JStr (User.email u));
        ("role", JStr (User.role u))].

Definition claims_of (u : User.t) : Claims :=
  mkClaims (User._id u) (User.email u) (User.role u).

(** The token that a login at time [now env] signs for account [u], and
    the answer that carries it. *)
Definition token_for `{Jwt} (env : Env) (u : User.t) : string :=
  jwt_sign (claims_of u) JWT_SECRET (24 * 3600) (now env).

Definition logged_in `{Jwt} (env : Env) (u : User.t) : Response :=
  res_json (JObj [("token", JStr (token_for env u)); ("user", profile u)]).

(** The document that a submission by [user] builds in state [s]. *)
Definition result_of (env : Env) (user : Claims) (b : TestResultBody) (s : State)
  : TestResult.t :=
  TestResult.mk (nextId s) (userId user) (tb_testType b) (tb_section b)
    (tb_score b) (tb_totalQuestions b) (tb_correctAnswers b)
    (Some (default 0 (tb_timeSpent b))) (now env).

Definition result_saved (r : TestResult.t) : Response :=
  created [("message", JStr "Test result saved successfully");
           ("result", TestResult.toJSON r)].

Definition university_added (u : University.t) : Response :=
  created [("message", JStr "University added successfully");
           ("university", University.toJSON u)].

(** The account that a registration builds in state [s]. *)
Definition account_of `{Bcrypt} (env : Env) (b : RegisterBody) (s : State) : User.t :=
  User.mk (nextId s) (rb_name b) (rb_email b)
    (bcrypt_hash (rb_password b) 10 (salt env)) "user" (now env).

(** The filter of a list-questions request. *)
Definition question_matches (testType section : string) (difficulty : option string)
    (q : Question.t) : bool :=
  String.eqb (Question.testType q) testType
  && String.eqb (Question.section q) section
  && match truthy difficulty with
     | Some x => String.eqb (Question.difficulty q) x
     | None => true
     end.

(** The statistics object of the dashboard. *)
Definition stats (testsCompleted averageScore totalStudyTime : Z) : Response :=
  res_json (JObj [("testsCompleted", JNum testsCompleted);
                  ("averageScore", JNum averageScore);
                  ("totalStudyTime", JNum totalStudyTime)]).

Definition no_space (s : string) : bool :=
  forallb (fun c => negb (Ascii.eqb c " ")) (list_ascii_of_string s).

(** The status codes of the error answers. *)
Definition error_codes : list Z := [400; 401; 403; 404; 500].

(** An answer of the server: a success, or an error object with a
    message. *)
Definition success_or_error (r : Response) : Prop :=
  (status r = 200 \/ status r = 201)
  \/ exists code msg, In code error_codes /\ msg <> "" /\ r = res_error code msg.

(** The documents that [s'] holds beyond those of [s] are valid; the added
    accounts are ordinary users with new, pairwise different emails. *)
Definition adds_valid (s s' : State) : Prop :=
  exists us rs unis qs,
    users (db s') = (users (db s) ++ us)%list
    /\ testResults (db s') = (testResults (db s) ++ rs)%list
    /\ universities (db s') = (universities (db s) ++ unis)%list
    /\ questions (db s') = (questions (db s) ++ qs)%list
    /\ Forall (fun u => User.validate u = true /\ User.role u = "user"
                        /\ ~ email_taken (User.email u) s) us
    /\ NoDup (map User.email us)
    /\ Forall (fun r => TestResult.validate r = true) rs
    /\ Forall (fun u => University.validate u = true) unis
    /\ Forall (fun q => Question.validate q = true) qs.

(** * Properties *)

(** ** Sorting and limiting *)

Section SortFacts.

Variable D : Type.
Variable le : D -> D -> bool.

Lemma insert_by_In x y l :
  In y (Query.insert_by le x l) <-> y = x \/ In y l.
Proof.
  induction l as [|z l IH]; simpl.
  - intuition.
  - destruct (le x z); simpl; rewrite ?IH; intuition.
Qed.

Lemma sort_by_In y l : In y (Query.sort_by le l) <-> In y l.
Proof.
  induction l as [|x l IH]; simpl.
  - tauto.
  - rewrite insert_by_In, IH. intuition.
Qed.

Lemma insert_by_length x l :
  length (Query.insert_by le x l) = S (length l).
Proof.
  induction l as [|z l IH]; simpl; [reflexivity|].
  destruct (le x z); simpl; [reflexivity | now rewrite IH].
Qed.

Lemma sort_by_length l : length (Query.sort_by le l) = length l.
Proof.
  induction l as [|x l IH]; simpl; [reflexivity|].
  now rewrite insert_by_length, IH.
Qed.

Lemma insert_by_Permutation x l : Permutation (x :: l) (Query.insert_by le x l).
Proof.
  induction l as [|z l IH]; simpl; [apply Permutation_refl|].
  destruct (le x z); [apply Permutation_refl|].
  eapply Permutation_trans; [apply perm_swap|].
  now apply perm_skip.
Qed.

Lemma sort_by_Permutation l : Permutation l (Query.sort_by le l).
Proof.
  induction l as [|x l IH]; simpl; [apply perm_nil|].
  eapply Permutation_trans; [apply perm_skip, IH|].
  apply insert_by_Permutation.
Qed.

Hypothesis le_total : forall a b, le a b = true \/ le b a = true.
Hypothesis le_trans : forall a b c, le a b = true -> le b c = true -> le a c = true.

Lemma insert_by_sorted x l :
  StronglySorted (fun a b => le a b = true) l ->
  StronglySorted (fun a b => le a b = true) (Query.insert_by le x l).
Proof.
  induction 1 as [|z l Hs IH Hz]; simpl.
  - constructor; constructor.
  - destruct (le x z) eqn:E.
    + constructor; [constructor; assumption|].
      constructor; [exact E|].
      rewrite Forall_forall in *. intros w Hw.
      eapply le_trans; [exact E | now apply Hz].
    + constructor; [exact IH|].
      rewrite Forall_forall in *. intros w Hw.
      apply insert_by_In in Hw. destruct Hw as [->|Hw]; [|now apply Hz].
      destruct (le_total x z) as [C|C]; [congruence | exact C].
Qed.

Lemma sort_by_sorted l :
  StronglySorted (fun a b => le a b = true) (Query.sort_by le l).
Proof.
  induction l as [|x l IH]; simpl; [constructor|].
  now apply insert_by_sorted.
Qed.

End SortFacts.

Lemma firstn_In {D} (y : D) n l : In y (firstn n l) -> In y l.
Proof.
  revert n. induction l as [|x l IH]; intros [|n]; simpl; try tauto.
  intros [->|H]; [now left | right; eauto].
Qed.

Lemma firstn_sorted {D} (R : D -> D -> Prop) n l :
  StronglySorted R l -> StronglySorted R (firstn n l).
Proof.
  intros H. revert n.
  induction H as [|x l Hs IH Hx]; intros [|n]; simpl; try constructor.
  - apply IH.
  - rewrite Forall_forall in *. intros y Hy.
    apply Hx. eapply firstn_In, Hy.
Qed.

Lemma StronglySorted_weaken {D} (R R' : D -> D -> Prop) l :
  (forall a b, R a b -> R' a b) -> StronglySorted R l -> StronglySorted R' l.
Proof.
  intros HR. induction 1 as [|x l Hs IH Hx]; constructor; [exact IH|].
  eapply Forall_impl; [|exact Hx]. intros y. apply HR.
Qed.

Lemma apply_limit_In {D} (y : D) n l : In y (Query.apply_limit n l) -> In y l.
Proof.
  unfold Query.apply_limit. destruct (n =? 0); [tauto | apply firstn_In].
Qed.

Lemma apply_limit_sorted {D} (R : D -> D -> Prop) n l :
  StronglySorted R l -> StronglySorted R (Query.apply_limit n l).
Proof.
  unfold Query.apply_limit. destruct (n =? 0); [tauto | apply firstn_sorted].
Qed.

Lemma apply_limit_length {D} n (l : list D) :
  0 < n -> (length (Query.apply_limit n l) <= Z.to_nat n)%nat.
Proof.
  intros Hn. unfold Query.apply_limit.
  destruct (Z.eqb_spec n 0); [lia|].
  replace (Z.abs_nat n) with (Z.to_nat n) by lia.
  apply firstn_le_length.
Qed.

(** The three sort keys are total preorders. *)
Lemma date_desc_total a b : date_desc a b = true \/ date_desc b a = true.
Proof. unfold date_desc. lia. Qed.

Lemma date_desc_trans a b c :
  date_desc a b = true -> date_desc b c = true -> date_desc a c = true.
Proof. unfold date_desc. lia. Qed.

Lemma id_desc_total a b : id_desc a b = true \/ id_desc b a = true.
Proof. unfold id_desc. lia. Qed.

Lemma id_desc_trans a b c :
  id_desc a b = true -> id_desc b c = true -> id_desc a c = true.
Proof. unfold id_desc. lia. Qed.

Lemma ranking_asc_total a b : ranking_asc a b = true \/ ranking_asc b a = true.
Proof.
  unfold ranking_asc, opt_leb.
  destruct (University.ranking a), (University.ranking b); auto; lia.
Qed.

Lemma ranking_asc_trans a b c :
  ranking_asc a b = true -> ranking_asc b c = true -> ranking_asc a c = true.
Proof.
  unfold ranking_asc, opt_leb.
  destruct (University.ranking a), (University.ranking b), (University.ranking c);
    auto; try discriminate; lia.
Qed.

(** ** JavaScript arithmetic *)

Lemma fold_left_sum {A} (f : A -> Z) (l : list A) (a : Z) :
  fold_left (fun sum x => sum + f x) l a = a + sum_of (map f l).
Proof.
  revert a. induction l as [|x l IH]; intros a; simpl; [lia|].
  rewrite IH. lia.
Qed.

Lemma Math_round_integer n : Js.Math_round (Js.mkRatio n 1) = n.
Proof.
  unfold Js.Math_round. cbn [Js.numer Js.denom]. symmetry.
  apply Z.div_unique with (r := 1); lia.
Qed.

(** [Math.round (n / d)] lies within one half of the quotient, and a tie
    is rounded up. *)
Lemma Math_round_nearest n d :
  0 < d ->
  2 * n - d < 2 * d * Js.Math_round (Js.mkRatio n d) <= 2 * n + d.
Proof.
  intros Hd. unfold Js.Math_round. cbn [Js.numer Js.denom].
  pose proof (Z.mul_div_le (2 * n + d) (2 * d) ltac:(lia)).
  pose proof (Z.mul_succ_div_gt (2 * n + d) (2 * d) ltac:(lia)).
  lia.
Qed.

(** ** The token guard *)

Lemma split_acc_no_sep sep cur s :
  forallb (fun c => negb (Ascii.eqb c sep)) (list_ascii_of_string s) = true ->
  Js.split_acc sep cur s = [(cur ++ s)%string].
Proof.
  revert cur. induction s as [|c s IH]; intros cur H; simpl in *.
  - f_equal. clear. induction cur; simpl; congruence.
  - apply andb_true_iff in H as [Hc Hs].
    destruct (Ascii.eqb c sep); [discriminate|].
    rewrite IH by exact Hs. f_equal.
    clear. induction cur; simpl; congruence.
Qed.

Section Guard.

Context {bcrypt : Bcrypt} {jwt : Jwt} {pcre : Pcre}.

(** A header [Bearer <token>] carries its token. *)
Lemma bearer_token_of_bearer token :
  token <> "" ->
  forallb (fun c => negb (Ascii.eqb c " ")) (list_ascii_of_string token) = true ->
  bearer_token (Some ("Bearer " ++ token)) = Some token.
Proof.
  intros Hne Hsp. unfold bearer_token, truthy, Js.split. simpl.
  rewrite split_acc_no_sep by exact Hsp. simpl.
  destruct (String.eqb_spec token ""); [contradiction | reflexivity].
Qed.

Lemma guard_no_token env authHeader next s :
  bearer_token authHeader = None ->
  authenticateToken env authHeader next s
  = (res_error 401 "Access token required", s).
Proof. intros H. unfold authenticateToken. now rewrite H. Qed.

Lemma guard_bad_token env authHeader token next s :
  bearer_token authHeader = Some token ->
  jwt_verify token JWT_SECRET (now env) = None ->
  authenticateToken env authHeader next s
  = (res_error 403 "Invalid or expired token", s).
Proof. intros H V. unfold authenticateToken. now rewrite H, V. Qed.

Lemma guard_pass env authHeader token user next s :
  bearer_token authHeader = Some token ->
  jwt_verify token JWT_SECRET (now env) = Some user ->
  authenticateToken env authHeader next s = next user s.
Proof. intros H V. unfold authenticateToken. now rewrite H, V. Qed.

(** C9. On every protected route (submit and list test results,
    dashboard statistics, add university) the guard answers 401
    'Access token required' when the Authorization header yields no
    token, and 403 'Invalid or expired token' when the token it yields
    fails verification.  In both cases the answer does not depend on the
    route's handler and the state is the one the request found: the
    handler body is not run and nothing is persisted. *)
Theorem token_guard_rejects_before_handler :
  forall (env : Env) (authHeader : option string) (s : State) (r : Response),
    (bearer_token authHeader = None /\
     r = res_error 401 "Access token required")
    \/ (exists token,
          bearer_token authHeader = Some token /\
          jwt_verify token JWT_SECRET (now env) = None /\
          r = res_error 403 "Invalid or expired token") ->
    (forall next, authenticateToken env authHeader next s = (r, s))
    /\ (forall b, postTestResult env authHeader b s = (r, s))
    /\ getTestResults env authHeader s = (r, s)
    /\ getDashboardStats env authHeader s = (r, s)
    /\ (forall b, postUniversity env authHeader b s = (r, s)).
Proof.
  intros env authHeader s r H.
  assert (G : forall next, authenticateToken env authHeader next s = (r, s)).
  { intros next. destruct H as [[H ->]|[token [H [V ->]]]].
    - now apply guard_no_token.
    - now apply guard_bad_token with token. }
  repeat split; intros; apply G.
Qed.

End Guard.

(** ** Test results and the dashboard *)

Section Results.

Context {bcrypt : Bcrypt} {jwt : Jwt} {pcre : Pcre}.

Lemma getTestResults_run env authHeader token user s :
  bearer_token authHeader = Some token ->
  jwt_verify token JWT_SECRET (now env) = Some user ->
  getTestResults env authHeader s
  = (res_json
       (JArr (map TestResult.toJSON
                (Query.apply_limit 10
                   (Query.sort_by date_desc (results_of (userId user) s))))),
     s).
Proof.
  intros H V. unfold getTestResults.
  rewrite (guard_pass _ _ _ _ _ _ H V). reflexivity.
Qed.

(** What a submission stores: nothing, or one result owned by the
    account of the token. *)
Lemma postTestResult_stores env authHeader token user b s :
  bearer_token authHeader = Some token ->
  jwt_verify token JWT_SECRET (now env) = Some user ->
  let s' := snd (postTestResult env authHeader b s) in
  testResults (db s') = testResults (db s)
  \/ exists r, testResults (db s') = (testResults (db s) ++ [r])%list
               /\ TestResult.userId r = userId user.
Proof.
  intros H V. unfold postTestResult.
  rewrite (guard_pass _ _ _ _ _ _ H V).
  unfold try_catch, bind, new_ObjectId, save_testResult, bind, get_db. simpl.
  destruct (negb (TestResult.validate _)); simpl.
  - now left.
  - right. eexists. split; reflexivity.
Qed.

(** C3. With a valid token, the list of test results is answered with
    status 200 and an array of results such that every one is owned by
    the account of the token, there are at most ten, they are in
    descending order of their timestamp, and each is a stored result.
    The request changes nothing.  A result that a submission stored
    under the token of another account is not in the list. *)
Theorem getTestResults_own_newest_ten :
  forall (env : Env) (authHeader token : string) (user : Claims) (s : State),
    bearer_token (Some authHeader) = Some token ->
    jwt_verify token JWT_SECRET (now env) = Some user ->
    exists results : list TestResult.t,
      getTestResults env (Some authHeader) s
      = (res_json (JArr (map TestResult.toJSON results)), s)
      /\ Forall (fun r => TestResult.userId r = userId user) results
      /\ (length results <= 10)%nat
      /\ StronglySorted
           (fun a b => TestResult.date a >= TestResult.date b) results
      /\ incl results (testResults (db s))
      /\ (forall envA authA tokenA userA bodyA s0 r,
             bearer_token authA = Some tokenA ->
             jwt_verify tokenA JWT_SECRET (now envA) = Some userA ->
             userId userA <> userId user ->
             testResults (db (snd (postTestResult envA authA bodyA s0)))
             = (testResults (db s0) ++ [r])%list ->
             ~ In r results).
Proof.
  intros env authHeader token user s H V.
  eexists. split; [apply (getTestResults_run _ _ _ _ _ H V)|].
  set (mine := results_of (userId user) s).
  assert (Hown : forall r,
             In r (Query.apply_limit 10 (Query.sort_by date_desc mine)) ->
             In r (testResults (db s)) /\ TestResult.userId r = userId user).
  { intros r Hr. apply apply_limit_In, sort_by_In in Hr.
    apply filter_In in Hr as [Hin Ho]. split; [exact Hin|].
    unfold owned_by in Ho. lia. }
  split; [|split; [|split; [|split]]].
  - apply Forall_forall. intros r Hr. now apply Hown.
  - apply (apply_limit_length 10). lia.
  - apply apply_limit_sorted.
    eapply StronglySorted_weaken.
    2: { apply sort_by_sorted; [apply date_desc_total | apply date_desc_trans]. }
    intros a b Hab. unfold date_desc in Hab. lia.
  - intros r Hr. now apply Hown.
  - intros envA authA tokenA userA bodyA s0 r HA VA Hne Hst Hin.
    apply Hown in Hin as [_ Hu].
    destruct (postTestResult_stores envA authA tokenA userA bodyA s0 HA VA)
      as [Hsame|[r' [Happ Hr']]].
    + rewrite Hsame in Hst.
      apply (f_equal (@length _)) in Hst. rewrite length_app in Hst.
      simpl in Hst. lia.
    + rewrite Happ in Hst. apply app_inv_head in Hst.
      injection Hst as <-. congruence.
Qed.

Lemma getDashboardStats_run env authHeader token user s :
  bearer_token authHeader = Some token ->
  jwt_verify token JWT_SECRET (now env) = Some user ->
  let mine := results_of (userId user) s in
  getDashboardStats env authHeader s
  = (res_json
       (JObj [("testsCompleted", JNum (Z.of_nat (length mine)));
              ("averageScore",
               JNum (Js.Math_round
                       (if (0 <? length mine)%nat
                        then Js.mkRatio (sum_of (map TestResult.score mine))
                               (Z.of_nat (length mine))
                        else Js.mkRatio 0 1)));
              ("totalStudyTime",
               JNum (sum_of (map (fun r => or_zero (TestResult.timeSpent r)) mine)))]),
     s).
Proof.
  intros H V mine. unfold getDashboardStats.
  rewrite (guard_pass _ _ _ _ _ _ H V).
  unfold try_catch, bind, get_db, Query.countDocuments, Query.exec, ret. simpl.
  fold (results_of (userId user) s). fold mine.
  rewrite Math_round_integer, !fold_left_sum. reflexivity.
Qed.


End Results.

(** ** Accounts *)

Lemma find_absent {A} (f : A -> bool) (l : list A) :
  (forall x, In x l -> f x = false) -> find f l = None.
Proof.
  induction l as [|x l IH]; intros H; simpl; [reflexivity|].
  rewrite (H x (or_introl eq_refl)). apply IH. intros y Hy. apply H. now right.
Qed.

Lemma find_present {A} (f : A -> bool) (l : list A) :
  (exists x, In x l /\ f x = true) ->
  exists y, find f l = Some y /\ In y l /\ f y = true.
Proof.
  intros [x [Hin Hf]]. destruct (find f l) as [y|] eqn:E.
  - exists y. split; [reflexivity|]. now apply find_some in E.
  - rewrite (find_none f l E x Hin) in Hf. discriminate.
Qed.

Lemma required_string_true s : s <> "" -> required_string s = true.
Proof.
  intros H. unfold required_string. destruct (String.eqb_spec s ""); [contradiction | reflexivity].
Qed.

Lemma email_absent email (s : State) :
  ~ email_taken email s ->
  forall u, In u (users (db s)) -> String.eqb (User.email u) email = false.
Proof.
  intros H u Hu. apply String.eqb_neq. intros E. apply H. now exists u.
Qed.

Section Accounts.

Context {bcrypt : Bcrypt} {jwt : Jwt} {pcre : Pcre}.

Lemma register_taken env b s :
  email_taken (rb_email b) s ->
  register env b s = (conflict, s).
Proof.
  intros [u [Hin He]].
  destruct (find_present (fun u => String.eqb (User.email u) (rb_email b))
              (users (db s))) as [y [Hy _]].
  { exists u. split; [exact Hin | now apply String.eqb_eq]. }
  unfold register, try_catch, bind, get_db, Query.findOne, ret. simpl.
  rewrite Hy. reflexivity.
Qed.

Lemma register_fresh env b s :
  ~ email_taken (rb_email b) s ->
  rb_name b <> "" -> rb_email b <> "" ->
  register env b s
  = (registered,
     mkState
       (set_users (db s)
          (users (db s)
           ++ [User.mk (nextId s) (rb_name b) (rb_email b)
                 (bcrypt_hash (rb_password b) 10 (salt env)) "user" (now env)]))
       (nextId s + 1)).
Proof.
  intros Hfresh Hn He.
  pose proof (email_absent _ _ Hfresh) as Hab.
  unfold register, try_catch, bind, get_db, Query.findOne, ret, new_ObjectId,
    save_user, bind, get_db, put_db. simpl.
  rewrite (find_absent _ _ Hab). simpl.
  unfold User.validate. simpl.
  rewrite (required_string_true _ Hn), (required_string_true _ He),
    (required_string_true _ (bcrypt_hash_nonempty _ _ _)). simpl.
  replace (existsb _ (users (db s))) with false; [reflexivity|].
  symmetry. apply not_true_is_false. intros Hex.
  apply existsb_exists in Hex as [v [Hv Hvv]].
  rewrite (Hab v Hv) in Hvv. discriminate.
Qed.

Lemma register_invalid env b s :
  ~ email_taken (rb_email b) s ->
  rb_name b = "" \/ rb_email b = "" ->
  register env b s
  = (res_error 500 "Server error during registration",
     mkState (db s) (nextId s + 1)).
Proof.
  intros Hfresh Hbad.
  pose proof (email_absent _ _ Hfresh) as Hab.
  unfold register, try_catch, bind, get_db, Query.findOne, ret, new_ObjectId,
    save_user, bind, get_db, put_db. simpl.
  rewrite (find_absent _ _ Hab). simpl.
  unfold User.validate. simpl.
  destruct Hbad as [-> | ->]; simpl; rewrite ?andb_false_r; reflexivity.
Qed.



End Accounts.


(** ** Adding a university *)

Section AddUniversity.

Context {bcrypt : Bcrypt} {jwt : Jwt} {pcre : Pcre}.

Lemma postUniversity_admin env authHeader token user b s :
  bearer_token authHeader = Some token ->
  jwt_verify token JWT_SECRET (now env) = Some user ->
  role user = "admin" ->
  postUniversity env authHeader b s
  = if University.validate (university_of b s)
    then (created [("message", JStr "University added successfully");
                   ("university", University.toJSON (university_of b s))],
          mkState
            (set_universities (db s) (universities (db s) ++ [university_of b s]))
            (nextId s + 1))
    else (res_error 500 "Error adding university", mkState (db s) (nextId s + 1)).
Proof.
  intros H V Hr. unfold postUniversity.
  rewrite (guard_pass _ _ _ _ _ _ H V), Hr. simpl.
  unfold try_catch, bind, new_University, bind, new_ObjectId, ret,
    save_university, bind, get_db, put_db. simpl.
  fold (university_of b s).
  destruct (University.validate (university_of b s)); reflexivity.
Qed.

Lemma validate_complete b s :
  complete b -> University.validate (university_of b s) = true.
Proof.
  intros [Hn [Hc Ht]]. unfold University.validate. simpl.
  now rewrite !required_string_true.
Qed.

Lemma validate_incomplete b s :
  ub_name b = "" \/ ub_country b = "" \/ ub_tuitionFee b = "" ->
  University.validate (university_of b s) = false.
Proof.
  unfold University.validate. simpl.
  intros [-> | [-> | ->]]; simpl; rewrite ?andb_false_r; reflexivity.
Qed.


End AddUniversity.

(** ** Questions *)

Lemma public_question_hides q :
  Json.get "correctAnswer" (public_question q) = None
  /\ Json.get "explanation" (public_question q) = None.
Proof.
  unfold public_question, Question.toJSON.
  destruct (Question.explanation q); split; reflexivity.
Qed.

Lemma public_question_id q :
  Json.get "_id" (public_question q) = Some (JNum (Question._id q)).
Proof. reflexivity. Qed.

Section Questions.

Context {bcrypt : Bcrypt} {jwt : Jwt} {pcre : Pcre}.

Lemma getQuestions_run testType section limit difficulty s :
  exists filter : Question.t -> bool,
    (forall q, filter q = true ->
               Question.testType q = testType /\ Question.section q = section)
    /\ getQuestions testType section limit difficulty s
       = match requested_limit limit with
         | Num n =>
             (res_json
                (JArr (map public_question
                         (Query.apply_limit n
                            (Query.sort_by id_desc
                               (List.filter filter (questions (db s))))))),
              s)
         | NaN => (res_error 500 "Error fetching questions", s)
         end.
Proof.
  eexists. split.
  2: { unfold getQuestions, try_catch, bind, get_db, Query.exec_json, bind,
         Query.exec, ret, throw. simpl.
       fold (requested_limit limit).
       destruct (requested_limit limit); reflexivity. }
  intros q Hq. cbv beta in Hq.
  apply andb_true_iff in Hq as [Hq _].
  apply andb_true_iff in Hq as [Ht Hs].
  split; now apply String.eqb_eq.
Qed.

(** C2. Whatever the test type, section, difficulty and limit, a
    list-questions request is answered either 500 (only when the limit
    does not parse as a number) or 200 with an array of questions in
    which no record has a [correctAnswer] or an [explanation] field.
    The records are stored questions of the requested test type and
    section, in descending order of [_id], the creation counter: the
    most recently created first.  The request changes nothing. *)
Theorem getQuestions_hides_answers_newest_first :
  forall (testType section : string) (limit difficulty : option string) (s : State),
    match requested_limit limit with
    | NaN =>
        getQuestions testType section limit difficulty s
        = (res_error 500 "Error fetching questions", s)
    | Num _ =>
        exists docs : list Question.t,
          getQuestions testType section limit difficulty s
          = (res_json (JArr (map public_question docs)), s)
          /\ Forall (fun j => Json.get "correctAnswer" j = None
                              /\ Json.get "explanation" j = None
                              /\ Json.has_field "question" j = true)
               (map public_question docs)
          /\ StronglySorted (fun a b => Question._id a >= Question._id b) docs
          /\ Forall (fun q => In q (questions (db s))
                              /\ Question.testType q = testType
                              /\ Question.section q = section) docs
    end.
Proof.
  intros testType section limit difficulty s.
  destruct (getQuestions_run testType section limit difficulty s)
    as [filter [Hf Hrun]].
  destruct (requested_limit limit) as [n|]; [|exact Hrun].
  eexists. split; [exact Hrun|]. split; [|split].
  - apply Forall_forall. intros j Hj.
    apply in_map_iff in Hj as [q [<- _]].
    destruct (public_question_hides q) as [H1 H2].
    split; [exact H1|]. split; [exact H2 | reflexivity].
  - apply apply_limit_sorted.
    eapply StronglySorted_weaken.
    2: { apply sort_by_sorted; [apply id_desc_total | apply id_desc_trans]. }
    intros a b Hab. unfold id_desc in Hab. lia.
  - apply Forall_forall. intros q Hq.
    apply apply_limit_In, sort_by_In, filter_In in Hq as [Hin Hq].
    split; [exact Hin | now apply Hf].
Qed.

(** C10. A list-questions request that names no limit is answered as
    the same request with limit 10: status 200 and at most ten
    questions. *)
Theorem getQuestions_default_limit :
  forall (testType section : string) (difficulty : option string) (s : State),
    requested_limit None = Num 10
    /\ getQuestions testType section None difficulty s
       = getQuestions testType section (Some "10") difficulty s
    /\ exists docs : list Question.t,
         getQuestions testType section None difficulty s
         = (res_json (JArr (map public_question docs)), s)
         /\ (length docs <= 10)%nat.
Proof.
  intros testType section difficulty s.
  split; [reflexivity|]. split; [reflexivity|].
  destruct (getQuestions_run testType section None difficulty s)
    as [filter [_ Hrun]].
  simpl in Hrun. eexists. split; [exact Hrun|].
  apply (apply_limit_length 10). lia.
Qed.


End Questions.

(** ** Regular expressions without special characters *)

Lemma parse_plain p :
  plain p = true ->
  Regex.parse p = Some (map Regex.Lit (list_ascii_of_string p)).
Proof.
  unfold plain. induction p as [|c p IH]; simpl; [reflexivity|].
  intros H. apply andb_true_iff in H as [Hc Hp].
  apply negb_true_iff in Hc.
  destruct (Ascii.eqb_spec c "."); [subst; discriminate|].
  destruct (Ascii.eqb_spec c "\"); [subst; discriminate|].
  rewrite Hc, (IH Hp). reflexivity.
Qed.

Lemma match_here_literal l s :
  Regex.match_here true (map Regex.Lit l) s = true
  <-> exists after,
      map Regex.to_lower (list_ascii_of_string s)
      = (map Regex.to_lower l ++ after)%list.
Proof.
  revert s. induction l as [|a l IH]; intros s; simpl.
  - split; [intros _; eexists; reflexivity | reflexivity].
  - destruct s as [|c s]; simpl.
    + split; [discriminate | intros [after H]; discriminate].
    + rewrite andb_true_iff, IH. split.
      * intros [Hc [after H]]. apply Ascii.eqb_eq in Hc.
        exists after. now rewrite Hc, H.
      * intros [after H]. injection H as Hc H.
        split; [rewrite Hc; apply Ascii.eqb_refl | now exists after].
Qed.

Lemma search_literal l s :
  Regex.search true (map Regex.Lit l) s = true
  <-> exists before after,
      map Regex.to_lower (list_ascii_of_string s)
      = (before ++ map Regex.to_lower l ++ after)%list.
Proof.
  induction s as [|c s IH].
  - simpl Regex.search. rewrite orb_false_r, match_here_literal. split.
    + intros [after H]. now exists [], after.
    + intros [before [after H]]. simpl in H.
      destruct before; [now exists after | discriminate].
  - simpl Regex.search. rewrite orb_true_iff, match_here_literal, IH. split.
    + intros [[after H] | [before [after H]]].
      * now exists [], after.
      * exists (Regex.to_lower c :: before), after. simpl. now rewrite H.
    + intros [before [after H]]. destruct before as [|x before].
      * left. now exists after.
      * right. simpl in H. injection H as _ H. now exists before, after.
Qed.

(** On a pattern without special characters, the search of the database
    is the substring test of the specification. *)
Lemma search_plain_contains needle hay :
  Regex.search true (map Regex.Lit (list_ascii_of_string needle)) hay = true
  <-> contains_ci needle hay.
Proof. apply search_literal. Qed.

(** ** Listing universities *)

Section ListUniversities.

Context {bcrypt : Bcrypt} {jwt : Jwt} {pcre : Pcre}.

Lemma getUniversities_run country search s :
  getUniversities country search s
  = match
      match truthy search with
      | Some p => Regex.compile p "i"
      | None => Ok (fun _ : string => true)
      end
    with
    | Ok name_ok =>
        (res_json
           (JArr (map University.toJSON
                    (Query.sort_by ranking_asc
                       (filter
                          (fun u =>
                             match truthy country with
                             | Some c => String.eqb (University.country u) c
                             | None => true
                             end && name_ok (University.name u))
                          (universities (db s)))))),
         s)
    | Throw _ => (res_error 500 "Error fetching universities", s)
    end.
Proof.
  unfold getUniversities, try_catch, bind, find_universities, bind, get_db,
    Query.exec, ret, throw. simpl.
  destruct (truthy search) as [p|]; simpl; [|reflexivity].
  destruct (Regex.compile p "i"); reflexivity.
Qed.

Lemma truthy_some (v : option string) c :
  v = Some c -> c <> "" -> truthy v = Some c.
Proof.
  intros -> H. simpl. destruct (String.eqb_spec c ""); [contradiction | reflexivity].
Qed.

Lemma compile_plain p :
  plain p = true ->
  Regex.compile p "i"
  = Ok (Regex.search true (map Regex.Lit (list_ascii_of_string p))).
Proof. intros H. unfold Regex.compile. now rewrite (parse_plain _ H). Qed.

Lemma contains_ci_empty hay : contains_ci "" hay.
Proof. exists [], (map Regex.to_lower (list_ascii_of_string hay)). reflexivity. Qed.

(** The name test of a request whose search string is absent or has no
    special character. *)
Lemma name_test_plain search :
  (forall p, search = Some p -> plain p = true) ->
  exists name_ok : string -> bool,
    match truthy search with
    | Some p => Regex.compile p "i"
    | None => Ok (fun _ : string => true)
    end = Ok name_ok
    /\ forall p, search = Some p ->
                 forall n, name_ok n = true <-> contains_ci p n.
Proof.
  intros Hplain. destruct search as [p|]; simpl.
  - specialize (Hplain p eq_refl).
    destruct (String.eqb_spec p "") as [->|Hne].
    + eexists. split; [reflexivity|]. intros p [= <-] n.
      split; [intros _; apply contains_ci_empty | reflexivity].
    + eexists. split; [apply (compile_plain _ Hplain)|].
      intros q [= <-] n. apply search_plain_contains.
  - eexists. split; [reflexivity|]. intros p [=].
Qed.

Lemma sorted_by_ranking l : StronglySorted by_ranking (Query.sort_by ranking_asc l).
Proof.
  apply (sort_by_sorted _ ranking_asc ranking_asc_total ranking_asc_trans).
Qed.


End ListUniversities.

(** * Further properties of the routes *)

(** ** What each route does to the state *)

Section Effects.

Context {bcrypt : Bcrypt} {jwt : Jwt} {pcre : Pcre}.

Lemma email_taken_dec e s : email_taken e s \/ ~ email_taken e s.
Proof.
  destruct (find (fun u => String.eqb (User.email u) e) (users (db s))) as [u|] eqn:F.
  - left. apply find_some in F as [Hin He]. exists u. split; [exact Hin|].
    now apply String.eqb_eq.
  - right. intros [u [Hin He]].
    pose proof (find_none _ _ F u Hin) as Hn. cbv beta in Hn.
    rewrite He, String.eqb_refl in Hn. discriminate.
Qed.

Lemma register_cases env b s :
  register env b s = (conflict, s)
  \/ register env b s
     = (res_error 500 "Server error during registration",
        mkState (db s) (nextId s + 1))
  \/ (~ email_taken (rb_email b) s /\ rb_name b <> "" /\ rb_email b <> ""
      /\ register env b s
         = (registered,
            mkState
              (set_users (db s)
                 (users (db s)
                  ++ [User.mk (nextId s) (rb_name b) (rb_email b)
                        (bcrypt_hash (rb_password b) 10 (salt env)) "user"
                        (now env)]))
              (nextId s + 1))).
Proof.
  destruct (email_taken_dec (rb_email b) s) as [T|F].
  - left. now apply register_taken.
  - right.
    destruct (String.eqb_spec (rb_name b) "") as [Hn|Hn].
    { left. apply register_invalid; auto. }
    destruct (String.eqb_spec (rb_email b) "") as [He|He].
    { left. apply register_invalid; auto. }
    right. repeat split; try assumption. now apply register_fresh.
Qed.

(** The result that a submission builds. *)
Lemma postTestResult_cases env authHeader b s :
  (exists code msg,
      (code = 401 \/ code = 403) /\ msg <> ""
      /\ postTestResult env authHeader b s = (res_error code msg, s))
  \/ postTestResult env authHeader b s
     = (res_error 500 "Error saving test result", mkState (db s) (nextId s + 1))
  \/ (exists token user,
         bearer_token authHeader = Some token
         /\ jwt_verify token JWT_SECRET (now env) = Some user
         /\ tb_testType b <> "" /\ tb_section b <> ""
         /\ let r :=
              TestResult.mk (nextId s) (userId user) (tb_testType b) (tb_section b)
                (tb_score b) (tb_totalQuestions b) (tb_correctAnswers b)
                (Some (default 0 (tb_timeSpent b))) (now env) in
            postTestResult env authHeader b s
            = (created [("message", JStr "Test result saved successfully");
                        ("result", TestResult.toJSON r)],
               mkState (set_testResults (db s) (testResults (db s) ++ [r]))
                 (nextId s + 1))).
Proof.
  destruct (bearer_token authHeader) as [token|] eqn:H.
  2: { left. exists 401, "Access token required".
       split; [now left|]. split; [discriminate|]. now apply guard_no_token. }
  destruct (jwt_verify token JWT_SECRET (now env)) as [user|] eqn:V.
  2: { left. exists 403, "Invalid or expired token".
       split; [now right|]. split; [discriminate|].
       now apply guard_bad_token with token. }
  right. unfold postTestResult. rewrite (guard_pass _ _ _ _ _ _ H V).
  unfold try_catch, bind, new_ObjectId, save_testResult, bind, get_db, put_db.
  simpl. unfold TestResult.validate. simpl.
  destruct (String.eqb_spec (tb_testType b) "") as [Ht|Ht].
  { left. unfold required_string. rewrite Ht. reflexivity. }
  destruct (String.eqb_spec (tb_section b) "") as [Hs|Hs].
  { left. unfold required_string. rewrite Hs. simpl.
    rewrite andb_false_r. reflexivity. }
  right. exists token, user. repeat split; try assumption.
  rewrite !required_string_true by assumption. reflexivity.
Qed.

Lemma postUniversity_cases env authHeader b s :
  (exists code msg,
      (code = 401 \/ code = 403) /\ msg <> ""
      /\ postUniversity env authHeader b s = (res_error code msg, s))
  \/ postUniversity env authHeader b s
     = (res_error 500 "Error adding university", mkState (db s) (nextId s + 1))
  \/ (University.validate (university_of b s) = true
      /\ postUniversity env authHeader b s
         = (created [("message", JStr "University added successfully");
                     ("university", University.toJSON (university_of b s))],
            mkState
              (set_universities (db s) (universities (db s) ++ [university_of b s]))
              (nextId s + 1))).
Proof.
  destruct (bearer_token authHeader) as [token|] eqn:H.
  2: { left. exists 401, "Access token required".
       split; [now left|]. split; [discriminate|]. now apply guard_no_token. }
  destruct (jwt_verify token JWT_SECRET (now env)) as [user|] eqn:V.
  2: { left. exists 403, "Invalid or expired token".
       split; [now right|]. split; [discriminate|].
       now apply guard_bad_token with token. }
  destruct (String.eqb_spec (role user) "admin") as [Hr|Hr].
  - right. rewrite (postUniversity_admin _ _ _ _ _ _ H V Hr).
    destruct (University.validate (university_of b s)); [right | left]; auto.
  - left. exists 403, "Admin access required".
    split; [now right|]. split; [discriminate|].
    unfold postUniversity. rewrite (guard_pass _ _ _ _ _ _ H V).
    destruct (String.eqb_spec (role user) "admin"); [contradiction | reflexivity].
Qed.

(** The five documents of the sample data, with the identifiers they get
    in state [s]. *)
Lemma seedData_run s :
  exists unis qs,
    seedData s
    = (res_json (JObj [("message", JStr "Sample data seeded successfully")]),
       mkState
         (mkDb (users (db s)) (testResults (db s))
            (universities (db s) ++ unis) (questions (db s) ++ qs))
         (nextId s + 5))
    /\ map University.name unis
       = ["Harvard University"; "Stanford University"; "Oxford University"]
    /\ map University._id unis = [nextId s; nextId s + 1; nextId s + 2]
    /\ map Question._id qs = [nextId s + 3; nextId s + 4]
    /\ Forall (fun u => University.validate u = true) unis
    /\ Forall (fun q => Question.validate q = true) qs.
Proof.
  eexists. eexists. split.
  - unfold seedData, try_catch, insertMany_universities, insertMany_questions.
    unfold bind, mapM, seed_universities, seed_questions, new_University,
      new_Question, bind, new_ObjectId, ret, get_db, put_db.
    simpl.
    replace (nextId s + 1 + 1 + 1 + 1 + 1) with (nextId s + 5) by lia.
    reflexivity.
  - simpl. split; [reflexivity|]. split; [repeat (f_equal; try lia)|].
    split; [repeat (f_equal; try lia)|].
    split; repeat constructor.
Qed.

End Effects.

(** ** Routes that only read *)

Section ReadOnly.

Context {bcrypt : Bcrypt} {jwt : Jwt} {pcre : Pcre}.

Lemma login_cases env b s :
  login env b s = (invalid_credentials, s)
  \/ exists u,
      In u (users (db s)) /\ User.email u = lb_email b
      /\ bcrypt_compare (lb_password b) (User.password u) = true
      /\ find (fun u => String.eqb (User.email u) (lb_email b)) (users (db s)) = Some u
      /\ login env b s = (logged_in env u, s).
Proof.
  unfold login, try_catch, bind, get_db, Query.findOne, ret. simpl.
  destruct (find _ (users (db s))) as [u|] eqn:F; [|now left].
  destruct (bcrypt_compare (lb_password b) (User.password u)) eqn:C; [|now left].
  right. exists u. apply find_some in F as [Hin He].
  apply String.eqb_eq in He. repeat split; auto.
Qed.

Lemma guarded_cases env authHeader (next : Claims -> Handler) s :
  authenticateToken env authHeader next s
  = (res_error 401 "Access token required", s)
  \/ authenticateToken env authHeader next s
     = (res_error 403 "Invalid or expired token", s)
  \/ exists token user,
      bearer_token authHeader = Some token
      /\ jwt_verify token JWT_SECRET (now env) = Some user
      /\ authenticateToken env authHeader next s = next user s.
Proof.
  destruct (bearer_token authHeader) as [token|] eqn:H.
  2: { left. now apply guard_no_token. }
  destruct (jwt_verify token JWT_SECRET (now env)) as [user|] eqn:V.
  2: { right. left. now apply guard_bad_token with token. }
  right. right. exists token, user. repeat split; auto.
  now apply guard_pass with token.
Qed.

Lemma getTestResults_cases env authHeader s :
  getTestResults env authHeader s = (res_error 401 "Access token required", s)
  \/ getTestResults env authHeader s
     = (res_error 403 "Invalid or expired token", s)
  \/ exists results,
      getTestResults env authHeader s
      = (res_json (JArr (map TestResult.toJSON results)), s).
Proof.
  destruct (bearer_token authHeader) as [token|] eqn:H.
  2: { left. now apply guard_no_token. }
  destruct (jwt_verify token JWT_SECRET (now env)) as [user|] eqn:V.
  2: { right. left. now apply guard_bad_token with token. }
  right. right. eexists. apply (getTestResults_run _ _ _ _ _ H V).
Qed.

Lemma getDashboardStats_cases env authHeader s :
  getDashboardStats env authHeader s = (res_error 401 "Access token required", s)
  \/ getDashboardStats env authHeader s
     = (res_error 403 "Invalid or expired token", s)
  \/ exists n a t, getDashboardStats env authHeader s = (stats n a t, s).
Proof.
  destruct (bearer_token authHeader) as [token|] eqn:H.
  2: { left. now apply guard_no_token. }
  destruct (jwt_verify token JWT_SECRET (now env)) as [user|] eqn:V.
  2: { right. left. now apply guard_bad_token with token. }
  right. right. eexists. eexists. eexists.
  apply (getDashboardStats_run _ _ _ _ _ H V).
Qed.

Lemma getUniversities_cases country search s :
  getUniversities country search s
  = (res_error 500 "Error fetching universities", s)
  \/ exists docs,
      getUniversities country search s
      = (res_json (JArr (map University.toJSON docs)), s).
Proof.
  rewrite getUniversities_run.
  destruct (match truthy search with
            | Some p => Regex.compile p "i"
            | None => Ok (fun _ : string => true)
            end); [right; eexists; reflexivity | now left].
Qed.

Lemma getQuestions_cases testType section limit difficulty s :
  getQuestions testType section limit difficulty s
  = (res_error 500 "Error fetching questions", s)
  \/ exists docs,
      getQuestions testType section limit difficulty s
      = (res_json (JArr (map public_question docs)), s).
Proof.
  destruct (getQuestions_run testType section limit difficulty s) as [f [_ H]].
  rewrite H. destruct (requested_limit limit); [right; eexists; reflexivity | now left].
Qed.

Lemma checkAnswer_cases b s :
  checkAnswer b s = (res_error 404 "Question not found", s)
  \/ exists q,
      find (fun q => Question._id q =? cb_questionId b) (questions (db s)) = Some q
      /\ checkAnswer b s
         = (graded q (Js.strict_eq_num (Question.correctAnswer q) (cb_userAnswer b)),
            s).
Proof.
  unfold checkAnswer, try_catch, bind, get_db, Query.findOne, ret. simpl.
  destruct (find _ (questions (db s))) as [q|]; [|now left].
  right. exists q. split; reflexivity.
Qed.

Lemma read_only_unchanged env r s :
  read_only r = true -> snd (app env r s) = s.
Proof.
  intros Hr. destruct r; try discriminate Hr; simpl.
  - destruct (login_cases env b s) as [H|[u [_ [_ [_ [_ H]]]]]]; now rewrite H.
  - destruct (getTestResults_cases env authHeader s) as [H|[H|[l H]]]; now rewrite H.
  - destruct (getDashboardStats_cases env authHeader s) as [H|[H|[n [a [t H]]]]];
      now rewrite H.
  - destruct (getUniversities_cases country search s) as [H|[l H]]; now rewrite H.
  - destruct (getQuestions_cases testType section limit difficulty s) as [H|[l H]];
      now rewrite H.
  - destruct (checkAnswer_cases b s) as [H|[q [_ H]]]; now rewrite H.
Qed.

(** X6. A login, a list of test results, the dashboard, a list of
    universities, a list of questions and a check of an answer leave the
    state as they found it, whatever the request carries and whatever
    the answer is; so does any sequence of such requests. *)
Theorem reading_routes_change_nothing :
  forall (requests : list (Env * Request)) (s : State),
    Forall (fun er => read_only (snd er) = true) requests ->
    serve requests s = s.
Proof.
  intros requests s H. revert s.
  induction H as [|[env r] requests Hr _ IH]; intros s; simpl; [reflexivity|].
  rewrite (read_only_unchanged env r s Hr). apply IH.
Qed.

End ReadOnly.

(** ** Invariants of the database *)

Section Invariants.

Context {bcrypt : Bcrypt} {jwt : Jwt} {pcre : Pcre}.

Lemma adds_nothing s s' : db s' = db s -> adds_valid s s'.
Proof.
  intros H. exists [], [], [], []. rewrite H, !app_nil_r.
  repeat split; auto; constructor.
Qed.

Lemma account_valid env b s :
  rb_name b <> "" -> rb_email b <> "" ->
  User.validate (account_of env b s) = true.
Proof.
  intros Hn He. unfold User.validate, account_of. simpl.
  now rewrite (required_string_true _ Hn), (required_string_true _ He),
    (required_string_true _ (bcrypt_hash_nonempty _ _ _)).
Qed.

Lemma adds_one_user s s' u :
  db s' = set_users (db s) (users (db s) ++ [u]) ->
  User.validate u = true -> User.role u = "user" ->
  ~ email_taken (User.email u) s ->
  adds_valid s s'.
Proof.
  intros H Hv Hr Hf. exists [u], [], [], []. rewrite H. simpl. rewrite !app_nil_r.
  split; [reflexivity|]. split; [reflexivity|]. split; [reflexivity|].
  split; [reflexivity|].
  split; [constructor; [auto | constructor]|].
  split; [constructor; [intros [] | constructor]|].
  split; [constructor|]. split; constructor.
Qed.

Lemma adds_one_result s s' r :
  db s' = set_testResults (db s) (testResults (db s) ++ [r]) ->
  TestResult.validate r = true ->
  adds_valid s s'.
Proof.
  intros H Hv. exists [], [r], [], []. rewrite H. simpl. rewrite !app_nil_r.
  split; [reflexivity|]. split; [reflexivity|]. split; [reflexivity|].
  split; [reflexivity|].
  split; [constructor|]. split; [constructor|].
  split; [constructor; [exact Hv | constructor]|]. split; constructor.
Qed.

Lemma adds_catalogue s s' unis qs :
  db s' = mkDb (users (db s)) (testResults (db s))
            (universities (db s) ++ unis) (questions (db s) ++ qs) ->
  Forall (fun u => University.validate u = true) unis ->
  Forall (fun q => Question.validate q = true) qs ->
  adds_valid s s'.
Proof.
  intros H Hu Hq. exists [], [], unis, qs. rewrite H. simpl. rewrite !app_nil_r.
  split; [reflexivity|]. split; [reflexivity|]. split; [reflexivity|].
  split; [reflexivity|].
  split; [constructor|]. split; [constructor|].
  split; [constructor|]. split; assumption.
Qed.

(** One request adds valid documents and touches nothing else. *)
Lemma app_adds_valid env r s : adds_valid s (snd (app env r s)).
Proof.
  destruct r; try (rewrite read_only_unchanged by reflexivity; now apply adds_nothing);
    cbn [app].
  - destruct (register_cases env b s) as [H|[H|[Hf [Hn [He H]]]]]; rewrite H;
      try now apply adds_nothing.
    apply adds_one_user with (u := account_of env b s); auto.
    now apply account_valid.
  - destruct (postTestResult_cases env authHeader b s)
      as [[code [msg [_ [_ H]]]]|[H|[token [user [_ [_ [Ht [Hs H]]]]]]]];
      rewrite H; try now apply adds_nothing.
    apply adds_one_result with (r := result_of env user b s); [reflexivity|].
    unfold TestResult.validate. simpl. now rewrite !required_string_true.
  - destruct (postUniversity_cases env authHeader b s)
      as [[code [msg [_ [_ H]]]]|[H|[Hv H]]];
      rewrite H; try now apply adds_nothing.
    apply adds_catalogue with (unis := [university_of b s]) (qs := []).
    + simpl. now rewrite app_nil_r.
    + constructor; [exact Hv | constructor].
    + constructor.
  - destruct (seedData_run s) as [unis [qs [H [_ [_ [_ [Hu Hq]]]]]]]. rewrite H.
    now apply adds_catalogue with (unis := unis) (qs := qs).
Qed.

Lemma adds_valid_extends s s' : adds_valid s s' -> extends s s'.
Proof.
  intros [us [rs [unis [qs [H1 [H2 [H3 [H4 _]]]]]]]].
  repeat split; eexists; eassumption.
Qed.

Lemma extends_refl s : extends s s.
Proof. repeat split; exists []; now rewrite app_nil_r. Qed.

Lemma extends_trans s1 s2 s3 : extends s1 s2 -> extends s2 s3 -> extends s1 s3.
Proof.
  intros [[a1 A1] [[b1 B1] [[c1 C1] [d1 D1]]]] [[a2 A2] [[b2 B2] [[c2 C2] [d2 D2]]]].
  repeat split.
  - exists (a1 ++ a2)%list. now rewrite A2, A1, app_assoc.
  - exists (b1 ++ b2)%list. now rewrite B2, B1, app_assoc.
  - exists (c1 ++ c2)%list. now rewrite C2, C1, app_assoc.
  - exists (d1 ++ d2)%list. now rewrite D2, D1, app_assoc.
Qed.

(** X9. No sequence of requests deletes, changes or reorders a stored
    document: each collection of the final state is the collection of
    the initial state followed by the documents added since. *)
Theorem requests_only_append :
  forall (requests : list (Env * Request)) (s : State),
    extends s (serve requests s).
Proof.
  induction requests as [|[env r] requests IH]; intros s; simpl.
  - apply extends_refl.
  - eapply extends_trans; [|apply IH].
    apply adds_valid_extends, app_adds_valid.
Qed.

Lemma adds_valid_unique_emails s s' :
  adds_valid s s' -> unique_emails s -> unique_emails s'.
Proof.
  intros [us [rs [unis [qs [H1 [_ [_ [_ [Hus [Hnd _]]]]]]]]]] Hu.
  unfold unique_emails in *. rewrite H1, map_app.
  apply NoDup_app; [exact Hu | exact Hnd |].
  intros e Hold Hnew.
  apply in_map_iff in Hnew as [u [<- Hin]].
  rewrite Forall_forall in Hus. destruct (Hus u Hin) as [_ [_ Hfresh]].
  apply Hfresh. apply in_map_iff in Hold as [v [He Hv]]. now exists v.
Qed.

(** X10. If no two stored accounts share an email, the same holds after
    any sequence of requests. *)
Theorem emails_stay_unique :
  forall (requests : list (Env * Request)) (s : State),
    unique_emails s -> unique_emails (serve requests s).
Proof.
  induction requests as [|[env r] requests IH]; intros s H; simpl; [exact H|].
  apply IH. eapply adds_valid_unique_emails; [apply app_adds_valid | exact H].
Qed.

Lemma adds_valid_schema s s' :
  adds_valid s s' -> schema_valid s -> schema_valid s'.
Proof.
  intros [us [rs [unis [qs [H1 [H2 [H3 [H4 [Hus [_ [Hrs [Hun Hqs]]]]]]]]]]]]
         [V1 [V2 [V3 V4]]].
  unfold schema_valid. rewrite H1, H2, H3, H4.
  repeat split; apply Forall_app; split; auto.
  eapply Forall_impl; [|exact Hus]. now intros u [H _].
Qed.

(** X11. If every stored document passes the validators of its schema
    (required fields not empty, role and difficulty within their
    enumerations), the same holds after any sequence of requests. *)
Theorem stored_documents_stay_valid :
  forall (requests : list (Env * Request)) (s : State),
    schema_valid s -> schema_valid (serve requests s).
Proof.
  induction requests as [|[env r] requests IH]; intros s H; simpl; [exact H|].
  apply IH. eapply adds_valid_schema; [apply app_adds_valid | exact H].
Qed.

Lemma adds_valid_no_admin s s' : adds_valid s s' -> no_admin s -> no_admin s'.
Proof.
  intros [us [rs [unis [qs [H1 [_ [_ [_ [Hus _]]]]]]]]] Hn.
  unfold no_admin in *. rewrite H1. apply Forall_app. split; [exact Hn|].
  eapply Forall_impl; [|exact Hus]. now intros u [_ [H _]].
Qed.

Lemma serve_no_admin requests s : no_admin s -> no_admin (serve requests s).
Proof.
  revert s. induction requests as [|[env r] requests IH]; intros s H; simpl; [exact H|].
  apply IH. eapply adds_valid_no_admin; [apply app_adds_valid | exact H].
Qed.

(** X12. No route creates an administrator.  From a state without
    administrator accounts, after any sequence of requests every account
    still has the role 'user', and every token that a login issues is
    signed for a stored account with the role 'user'. *)
Theorem no_route_creates_an_admin :
  forall (requests : list (Env * Request)) (s : State),
    no_admin s ->
    no_admin (serve requests s)
    /\ forall (env : Env) (b : LoginBody),
         status (fst (login env b (serve requests s))) = 200 ->
         exists u,
           In u (users (db (serve requests s)))
           /\ User.role u = "user"
           /\ fst (login env b (serve requests s)) = logged_in env u
           /\ role (claims_of u) = "user".
Proof.
  intros requests s H.
  pose proof (serve_no_admin requests s H) as Hn.
  split; [exact Hn|]. intros env b Hs.
  destruct (login_cases env b (serve requests s)) as [E|[u [Hin [_ [_ [_ E]]]]]];
    rewrite E in *.
  - discriminate Hs.
  - unfold no_admin in Hn. rewrite Forall_forall in Hn.
    exists u. repeat split; auto. simpl. now apply Hn.
Qed.

End Invariants.

(** ** Logging in *)

Lemma find_app_fresh {A} (f : A -> bool) (l : list A) (x : A) :
  (forall y, In y l -> f y = false) -> f x = true -> find f (l ++ [x]) = Some x.
Proof.
  intros Hl Hx. induction l as [|y l IH]; simpl.
  - now rewrite Hx.
  - rewrite (Hl y (or_introl eq_refl)). apply IH. intros z Hz. apply Hl. now right.
Qed.

Section LoggingIn.

Context {bcrypt : Bcrypt} {jwt : Jwt} {pcre : Pcre}.

Lemma login_succeeds env b s :
  email_taken (lb_email b) s ->
  (forall u, In u (users (db s)) -> User.email u = lb_email b ->
             bcrypt_compare (lb_password b) (User.password u) = true) ->
  exists u,
    In u (users (db s)) /\ User.email u = lb_email b
    /\ login env b s = (logged_in env u, s).
Proof.
  intros [u0 [Hin0 He0]] Hpw.
  destruct (find_present (fun u => String.eqb (User.email u) (lb_email b))
              (users (db s))) as [y [Hy [Hyin Hye]]].
  { exists u0. split; [exact Hin0 | now apply String.eqb_eq]. }
  apply String.eqb_eq in Hye.
  exists y. split; [exact Hyin|]. split; [exact Hye|].
  unfold login, try_catch, bind, get_db, Query.findOne, ret. simpl.
  rewrite Hy, (Hpw y Hyin Hye). reflexivity.
Qed.

(** X1. When the email of a login is that of a stored account and the
    password verifies against every stored hash under that email, the
    answer is 200 with a token signed for the identifier, email and role
    of a stored account with that email, valid for 24 hours, and with
    the profile of that account, which has no password field.  The
    state is unchanged. *)
Theorem login_issues_token_and_profile :
  forall (env : Env) (b : LoginBody) (s : State),
    email_taken (lb_email b) s ->
    (forall u, In u (users (db s)) -> User.email u = lb_email b ->
               bcrypt_compare (lb_password b) (User.password u) = true) ->
    exists u,
      In u (users (db s))
      /\ User.email u = lb_email b
      /\ login env b s = (logged_in env u, s)
      /\ Json.get "token" (body (logged_in env u))
         = Some (JStr (jwt_sign (mkClaims (User._id u) (User.email u) (User.role u))
                         JWT_SECRET 86400 (now env)))
      /\ Json.get "user" (body (logged_in env u)) = Some (profile u)
      /\ Json.get "password" (profile u) = None
      /\ Json.get "password" (body (logged_in env u)) = None.
Proof.
  intros env b s Ht Hpw.
  destruct (login_succeeds env b s Ht Hpw) as [u [Hin [He E]]].
  exists u. repeat split; auto.
Qed.

(** X13. After a registration that is answered Created, a login with the
    same email and password is answered 200 with a token and the profile
    of the new account, whose role is 'user', provided the password
    verifies against its own hash. *)
Theorem register_then_login :
  forall (env env' : Env) (b : RegisterBody) (s : State),
    ~ email_taken (rb_email b) s ->
    rb_name b <> "" -> rb_email b <> "" ->
    bcrypt_compare (rb_password b)
      (bcrypt_hash (rb_password b) 10 (salt env)) = true ->
    let s' := snd (register env b s) in
    fst (register env b s) = registered
    /\ login env' (mkLoginBody (rb_email b) (rb_password b)) s'
       = (logged_in env' (account_of env b s), s')
    /\ profile (account_of env b s)
       = JObj [("id", JNum (nextId s)); ("name", JStr (rb_name b));
               ("email", JStr (rb_email b)); ("role", JStr "user")].
Proof.
  intros env env' b s Hf Hn He Hc s'. unfold s'.
  rewrite (register_fresh env b s Hf Hn He). simpl.
  split; [reflexivity|]. split; [|reflexivity].
  unfold login, try_catch, bind, get_db, Query.findOne, ret. simpl.
  rewrite find_app_fresh.
  - simpl. rewrite Hc. reflexivity.
  - apply (email_absent _ _ Hf).
  - apply String.eqb_refl.
Qed.

End LoggingIn.

(** ** Submitting and listing test results *)

Lemma sorted_cross {D} (R : D -> D -> Prop) (l1 l2 : list D) :
  StronglySorted R (l1 ++ l2) ->
  forall a b, In a l1 -> In b l2 -> R a b.
Proof.
  induction l1 as [|x l1 IH]; simpl; intros H a b Ha Hb; [contradiction|].
  inversion H as [|? ? Hs Hx]; subst.
  destruct Ha as [<-|Ha].
  - rewrite Forall_forall in Hx. apply Hx. apply in_or_app. now right.
  - now apply IH.
Qed.

Lemma sort_by_newest l r :
  (forall x, In x l -> TestResult.date x < TestResult.date r) ->
  Query.sort_by date_desc (l ++ [r]) = r :: Query.sort_by date_desc l.
Proof.
  induction l as [|x l IH]; intros H; simpl; [reflexivity|].
  rewrite IH by (intros y Hy; apply H; now right). simpl.
  unfold date_desc at 1.
  pose proof (H x (or_introl eq_refl)).
  destruct (Z.leb_spec (TestResult.date r) (TestResult.date x)); [lia | reflexivity].
Qed.

Lemma sum_of_app l1 l2 : sum_of (l1 ++ l2) = sum_of l1 + sum_of l2.
Proof. induction l1 as [|x l1 IH]; simpl; [reflexivity | rewrite IH; lia]. Qed.

Section Submitting.

Context {bcrypt : Bcrypt} {jwt : Jwt} {pcre : Pcre}.

Lemma postTestResult_valid env authHeader token user b s :
  bearer_token authHeader = Some token ->
  jwt_verify token JWT_SECRET (now env) = Some user ->
  tb_testType b <> "" -> tb_section b <> "" ->
  postTestResult env authHeader b s
  = (result_saved (result_of env user b s),
     mkState
       (set_testResults (db s) (testResults (db s) ++ [result_of env user b s]))
       (nextId s + 1)).
Proof.
  intros H V Ht Hs. unfold postTestResult.
  rewrite (guard_pass _ _ _ _ _ _ H V).
  unfold try_catch, bind, new_ObjectId, save_testResult, bind, get_db, put_db.
  simpl. unfold TestResult.validate. simpl.
  rewrite !required_string_true by assumption. reflexivity.
Qed.

Lemma results_of_after env user b s uid :
  results_of uid
    (mkState (set_testResults (db s) (testResults (db s) ++ [result_of env user b s]))
       (nextId s + 1))
  = (results_of uid s
     ++ if userId user =? uid then [result_of env user b s] else [])%list.
Proof.
  unfold results_of. simpl. rewrite filter_app. simpl.
  unfold owned_by at 2. simpl. reflexivity.
Qed.


(** X14. After a submission that is answered 201, at a time later than
    every result the account already has, the account's list of test
    results starts with the new result; what follows are results it had
    before. *)
Theorem submitted_result_is_listed_first :
  forall (env env' : Env) (authHeader : option string) (token : string)
         (user : Claims) (b : TestResultBody) (s : State),
    bearer_token authHeader = Some token ->
    jwt_verify token JWT_SECRET (now env) = Some user ->
    jwt_verify token JWT_SECRET (now env') = Some user ->
    tb_testType b <> "" -> tb_section b <> "" ->
    (forall x, In x (results_of (userId user) s) -> TestResult.date x < now env) ->
    let s' := snd (postTestResult env authHeader b s) in
    exists rest,
      getTestResults env' authHeader s'
      = (res_json (JArr (map TestResult.toJSON (result_of env user b s :: rest))),
         s')
      /\ incl rest (results_of (userId user) s).
Proof.
  intros env env' authHeader token user b s H V V' Ht Hs Hnew s'. unfold s'.
  rewrite (postTestResult_valid _ _ _ _ _ _ H V Ht Hs). simpl.
  rewrite (getTestResults_run _ _ _ _ _ H V').
  rewrite results_of_after, Z.eqb_refl.
  rewrite sort_by_newest by exact Hnew.
  exists (firstn 9 (Query.sort_by date_desc (results_of (userId user) s))).
  split; [reflexivity|].
  intros x Hx. apply firstn_In in Hx. now apply sort_by_In in Hx.
Qed.


(** X16. With a valid token, the results listed are the most recent
    ones of the account: together with the results left out they are the
    account's stored results, none of those left out is newer than any
    listed, and ten are listed unless the account has fewer. *)
Theorem getTestResults_most_recent :
  forall (env : Env) (authHeader : option string) (token : string) (user : Claims)
         (s : State),
    bearer_token authHeader = Some token ->
    jwt_verify token JWT_SECRET (now env) = Some user ->
    exists listed left_out,
      getTestResults env authHeader s
      = (res_json (JArr (map TestResult.toJSON listed)), s)
      /\ Permutation (results_of (userId user) s) (listed ++ left_out)
      /\ (forall a b, In a listed -> In b left_out ->
                      TestResult.date a >= TestResult.date b)
      /\ length listed = Nat.min 10 (length (results_of (userId user) s)).
Proof.
  intros env authHeader token user s H V.
  set (sorted := Query.sort_by date_desc (results_of (userId user) s)).
  exists (firstn 10 sorted), (skipn 10 sorted).
  split; [apply (getTestResults_run _ _ _ _ _ H V)|]. split; [|split].
  - rewrite firstn_skipn. apply sort_by_Permutation.
  - intros a b Ha Hb.
    assert (Hs : StronglySorted (fun a b => date_desc a b = true)
                   (firstn 10 sorted ++ skipn 10 sorted)).
    { rewrite firstn_skipn.
      apply sort_by_sorted; [apply date_desc_total | apply date_desc_trans]. }
    pose proof (sorted_cross _ _ _ Hs a b Ha Hb) as Hab.
    unfold date_desc in Hab. lia.
  - rewrite length_firstn. unfold sorted. now rewrite sort_by_length.
Qed.

End Submitting.

(** ** Limits and identifiers of questions *)

Section QuestionLists.

Context {bcrypt : Bcrypt} {jwt : Jwt} {pcre : Pcre}.

Lemma getQuestions_matching testType section limit difficulty s :
  getQuestions testType section limit difficulty s
  = match requested_limit limit with
    | Num n =>
        (res_json
           (JArr (map public_question
                    (Query.apply_limit n
                       (Query.sort_by id_desc
                          (filter (question_matches testType section difficulty)
                             (questions (db s))))))),
         s)
    | NaN => (res_error 500 "Error fetching questions", s)
    end.
Proof.
  unfold getQuestions, try_catch, bind, get_db, Query.exec_json, bind,
    Query.exec, ret, throw. simpl.
  fold (requested_limit limit).
  destruct (requested_limit limit); reflexivity.
Qed.


(** X4. A list-questions request whose limit parses as 0 is not
    limited: the answer holds every stored question of the test type,
    section and difficulty asked for. *)
Theorem getQuestions_limit_zero_is_no_limit :
  forall (testType section limit : string) (difficulty : option string) (s : State),
    Js.parseInt limit = Num 0 ->
    exists docs,
      getQuestions testType section (Some limit) difficulty s
      = (res_json (JArr (map public_question docs)), s)
      /\ Permutation docs
           (filter (question_matches testType section difficulty) (questions (db s))).
Proof.
  intros testType section limit difficulty s Hp.
  rewrite getQuestions_matching. simpl. rewrite Hp.
  eexists. split; [reflexivity|].
  unfold Query.apply_limit. simpl.
  apply Permutation_sym, sort_by_Permutation.
Qed.

(** X18. Every question of a list-questions answer can be checked: a
    check-answer request with its identifier is never answered 404; it
    is graded against a stored question with that identifier. *)
Theorem listed_questions_can_be_checked :
  forall (testType section : string) (limit difficulty : option string)
         (s : State) (n : Z),
    requested_limit limit = Num n ->
    exists docs,
      getQuestions testType section limit difficulty s
      = (res_json (JArr (map public_question docs)), s)
      /\ forall q answer,
           In q docs ->
           Json.get "_id" (public_question q) = Some (JNum (Question._id q))
           /\ exists q',
               In q' (questions (db s))
               /\ Question._id q' = Question._id q
               /\ checkAnswer (mkCheckAnswerBody (Question._id q) answer) s
                  = (graded q' (Js.strict_eq_num (Question.correctAnswer q') answer),
                     s).
Proof.
  intros testType section limit difficulty s n Hl.
  rewrite getQuestions_matching, Hl.
  eexists. split; [reflexivity|].
  intros q answer Hq. split; [reflexivity|].
  apply apply_limit_In, sort_by_In, filter_In in Hq as [Hin _].
  destruct (find_present (fun x => Question._id x =? Question._id q)
              (questions (db s))) as [q' [Hf [Hin' Hid]]].
  { exists q. split; [exact Hin | apply Z.eqb_refl]. }
  apply Z.eqb_eq in Hid.
  exists q'. split; [exact Hin'|]. split; [exact Hid|].
  unfold checkAnswer, try_catch, bind, get_db, Query.findOne, ret. simpl.
  rewrite Hf. reflexivity.
Qed.

End QuestionLists.

(** ** The catalogue of universities *)

Lemma filter_all {A} (f : A -> bool) (l : list A) :
  (forall x, f x = true) -> filter f l = l.
Proof.
  intros H. induction l as [|x l IH]; simpl; [reflexivity|].
  now rewrite H, IH.
Qed.

Section Catalogue.

Context {bcrypt : Bcrypt} {jwt : Jwt} {pcre : Pcre}.

(** X8. A list-universities request without country and search (absent
    or empty) is answered 200 with every stored university, each as
    often as it is stored, in ascending order of ranking. *)
Theorem getUniversities_unfiltered_lists_all :
  forall (country search : option string) (s : State),
    truthy country = None -> truthy search = None ->
    exists docs,
      getUniversities country search s
      = (res_json (JArr (map University.toJSON docs)), s)
      /\ Permutation docs (universities (db s))
      /\ StronglySorted by_ranking docs.
Proof.
  intros country search s Hc Hs.
  rewrite getUniversities_run, Hs, Hc.
  rewrite filter_all by reflexivity.
  eexists. split; [reflexivity|].
  split; [apply Permutation_sym, sort_by_Permutation | apply sorted_by_ranking].
Qed.

(** X17. After an add-university request that is answered 201, the new
    university is in the unfiltered list of universities and in the list
    for its own country. *)
Theorem added_university_is_listed :
  forall (env : Env) (authHeader : option string) (token : string) (user : Claims)
         (b : UniversityBody) (s : State),
    bearer_token authHeader = Some token ->
    jwt_verify token JWT_SECRET (now env) = Some user ->
    role user = "admin" ->
    complete b ->
    let s' := snd (postUniversity env authHeader b s) in
    fst (postUniversity env authHeader b s) = university_added (university_of b s)
    /\ (exists docs,
           getUniversities None None s'
           = (res_json (JArr (map University.toJSON docs)), s')
           /\ In (university_of b s) docs)
    /\ (exists docs,
           getUniversities (Some (ub_country b)) None s'
           = (res_json (JArr (map University.toJSON docs)), s')
           /\ In (university_of b s) docs).
Proof.
  intros env authHeader token user b s H V Hr Hc s'. unfold s'.
  rewrite (postUniversity_admin _ _ _ _ _ _ H V Hr), validate_complete by exact Hc.
  cbn [fst snd]. split; [reflexivity|].
  assert (Hin : In (university_of b s)
                  (universities
                     (db (mkState
                            (set_universities (db s)
                               (universities (db s) ++ [university_of b s]))
                            (nextId s + 1))))).
  { simpl. apply in_or_app. right. now left. }
  split.
  - rewrite getUniversities_run. simpl.
    eexists. split; [reflexivity|].
    apply sort_by_In, filter_In. split; [exact Hin | reflexivity].
  - rewrite getUniversities_run.
    destruct Hc as [_ [Hco _]].
    rewrite (truthy_some _ _ eq_refl Hco). cbn [truthy].
    eexists. split; [reflexivity|].
    apply sort_by_In, filter_In. split; [exact Hin|].
    simpl. rewrite String.eqb_refl. reflexivity.
Qed.

(** X7. Seeding is answered 200 in every state and appends the three
    sample universities and the two sample questions; it does not look
    at what is stored, so seeding twice stores every sample twice. *)
Theorem seedData_appends_every_time :
  forall (s : State),
    let names := ["Harvard University"; "Stanford University"; "Oxford University"] in
    let s1 := snd (seedData s) in
    let s2 := snd (seedData s1) in
    status (fst (seedData s)) = 200
    /\ status (fst (seedData s1)) = 200
    /\ map University.name (universities (db s1))
       = (map University.name (universities (db s)) ++ names)%list
    /\ map University.name (universities (db s2))
       = (map University.name (universities (db s)) ++ names ++ names)%list
    /\ length (questions (db s1)) = (length (questions (db s)) + 2)%nat
    /\ length (questions (db s2)) = (length (questions (db s)) + 4)%nat
    /\ users (db s2) = users (db s)
    /\ testResults (db s2) = testResults (db s).
Proof.
  intros s names s1 s2. unfold s2, s1.
  destruct (seedData_run s) as [u1 [q1 [E1 [N1 [_ [I1 _]]]]]].
  rewrite E1. cbn [fst snd].
  destruct (seedData_run
              (mkState
                 (mkDb (users (db s)) (testResults (db s))
                    (universities (db s) ++ u1) (questions (db s) ++ q1))
                 (nextId s + 5))) as [u2 [q2 [E2 [N2 [_ [I2 _]]]]]].
  rewrite E2. cbn [fst snd db users testResults universities questions status res_json].
  apply (f_equal (@length _)) in I1, I2. rewrite length_map in I1, I2.
  simpl in I1, I2.
  rewrite !map_app, N1, N2, !length_app, I1, I2, <- app_assoc.
  repeat split; try reflexivity; lia.
Qed.

End Catalogue.

(** ** The shape of every answer *)

Section Answers.

Context {bcrypt : Bcrypt} {jwt : Jwt} {pcre : Pcre}.

Lemma error_shape code msg :
  In code error_codes -> msg <> "" -> success_or_error (res_error code msg).
Proof. intros Hc Hm. right. now exists code, msg. Qed.

Lemma app_success_or_error env r s : success_or_error (fst (app env r s)).
Proof.
  destruct r; cbn [app].
  - destruct (register_cases env b s) as [H|[H|[_ [_ [_ H]]]]]; rewrite H.
    + apply error_shape; [simpl; tauto | discriminate].
    + apply error_shape; [simpl; tauto | discriminate].
    + left. now right.
  - destruct (login_cases env b s) as [H|[u [_ [_ [_ [_ H]]]]]]; rewrite H.
    + apply error_shape; [simpl; tauto | discriminate].
    + left. now left.
  - destruct (postTestResult_cases env authHeader b s)
      as [[code [msg [Hc [Hm H]]]]|[H|[token [user [_ [_ [_ [_ H]]]]]]]]; rewrite H.
    + apply error_shape; [simpl; destruct Hc as [-> | ->]; tauto | exact Hm].
    + apply error_shape; [simpl; tauto | discriminate].
    + left. now right.
  - destruct (getTestResults_cases env authHeader s) as [H|[H|[l H]]]; rewrite H.
    + apply error_shape; [simpl; tauto | discriminate].
    + apply error_shape; [simpl; tauto | discriminate].
    + left. now left.
  - destruct (getDashboardStats_cases env authHeader s) as [H|[H|[n [a [t H]]]]];
      rewrite H.
    + apply error_shape; [simpl; tauto | discriminate].
    + apply error_shape; [simpl; tauto | discriminate].
    + left. now left.
  - destruct (getUniversities_cases country search s) as [H|[l H]]; rewrite H.
    + apply error_shape; [simpl; tauto | discriminate].
    + left. now left.
  - destruct (postUniversity_cases env authHeader b s)
      as [[code [msg [Hc [Hm H]]]]|[H|[_ H]]]; rewrite H.
    + apply error_shape; [simpl; destruct Hc as [-> | ->]; tauto | exact Hm].
    + apply error_shape; [simpl; tauto | discriminate].
    + left. now right.
  - destruct (getQuestions_cases testType section limit difficulty s) as [H|[l H]];
      rewrite H.
    + apply error_shape; [simpl; tauto | discriminate].
    + left. now left.
  - destruct (checkAnswer_cases b s) as [H|[q [_ H]]]; rewrite H.
    + apply error_shape; [simpl; tauto | discriminate].
    + left. now left.
  - destruct (seedData_run s) as [u [q [H _]]]. rewrite H. left. now left.
Qed.

(** X19. Every answer of every route is either a success with status
    200 or 201, or an object with the single field [error] holding a
    message that is not empty, under status 400, 401, 403, 404 or 500.
    In the client, [apiCall] returns the body of the former and throws
    the message of the latter. *)
Theorem every_answer_is_success_or_error_message :
  forall (env : Env) (r : Request) (s : State),
    let answer := fst (app env r s) in
    ((status answer = 200 \/ status answer = 201)
     /\ Client.apiCall_outcome answer = inl (body answer))
    \/ (exists code msg,
           In code error_codes /\ msg <> ""
           /\ answer = res_error code msg
           /\ Client.apiCall_outcome answer = inr (JStr msg)).
Proof.
  intros env r s answer.
  destruct (app_success_or_error env r s) as [Hs|[code [msg [Hc [Hm E]]]]];
    fold answer in Hs || fold answer in E.
  - left. split; [exact Hs|].
    unfold Client.apiCall_outcome, Client.ok.
    destruct Hs as [-> | ->]; reflexivity.
  - right. exists code, msg. repeat split; auto.
    assert (Hcode : (200 <=? code) && (code <=? 299) = false).
    { simpl in Hc. destruct Hc as [<-|[<-|[<-|[<-|[<-|[]]]]]]; reflexivity. }
    rewrite E. unfold Client.apiCall_outcome, Client.ok, res_error.
    cbn [status body]. rewrite Hcode.
    change (Json.get "error" (JObj [("error", JStr msg)])) with (Some (JStr msg)).
    cbn [Client.json_truthy default].
    destruct (String.eqb_spec msg ""); [contradiction | reflexivity].
Qed.

End Answers.

(** ** The Authorization header *)

Lemma append_empty s : (s ++ "")%string = s.
Proof. induction s as [|c s IH]; simpl; congruence. Qed.

Lemma append_assoc_string a b c : ((a ++ b) ++ c)%string = (a ++ b ++ c)%string.
Proof. induction a as [|x a IH]; simpl; congruence. Qed.

Lemma split_acc_first sep cur a b :
  forallb (fun c => negb (Ascii.eqb c sep)) (list_ascii_of_string a) = true ->
  Js.split_acc sep cur (a ++ String sep b)
  = (cur ++ a)%string :: Js.split_acc sep EmptyString b.
Proof.
  revert cur. induction a as [|c a IH]; intros cur H; simpl in *.
  - rewrite Ascii.eqb_refl, append_empty. reflexivity.
  - apply andb_true_iff in H as [Hc Ha].
    destruct (Ascii.eqb c sep); [discriminate|].
    rewrite IH by exact Ha. f_equal.
    now rewrite append_assoc_string.
Qed.

Section Header.

Context {bcrypt : Bcrypt} {jwt : Jwt} {pcre : Pcre}.

Lemma second_word scheme token tail :
  no_space scheme = true -> no_space token = true ->
  tail = "" \/ (exists t, tail = String " " t) ->
  nth_error (Js.split " " (scheme ++ String " " (token ++ tail))) 1 = Some token.
Proof.
  intros Hs Ht Htail. unfold Js.split.
  rewrite split_acc_first by exact Hs. simpl.
  destruct Htail as [-> | [t ->]].
  - rewrite append_empty, split_acc_no_sep by exact Ht. reflexivity.
  - rewrite split_acc_first by exact Ht. reflexivity.
Qed.

(** X5. The guard reads the second space-separated word of the
    Authorization header as the token, whatever the first word is and
    whatever follows the second: the scheme is not checked, so a header
    with any scheme is treated as the header [Bearer <token>]. *)
Theorem guard_ignores_the_scheme :
  forall (scheme token tail : string),
    no_space scheme = true -> no_space token = true -> token <> "" ->
    tail = "" \/ (exists t, tail = String " " t) ->
    bearer_token (Some (scheme ++ String " " (token ++ tail))) = Some token
    /\ forall env next s,
         authenticateToken env (Some (scheme ++ String " " (token ++ tail))) next s
         = authenticateToken env (Some ("Bearer " ++ token)) next s.
Proof.
  intros scheme token tail Hs Ht Hne Htail.
  assert (H : forall sch tl,
             no_space sch = true -> tl = "" \/ (exists t, tl = String " " t) ->
             bearer_token (Some (sch ++ String " " (token ++ tl))) = Some token).
  { intros sch tl Hsch Htl. unfold bearer_token.
    assert (Hh : truthy (Some (sch ++ String " " (token ++ tl)))
                 = Some (sch ++ String " " (token ++ tl))).
    { simpl. destruct sch; reflexivity. }
    rewrite Hh, (second_word sch token tl Hsch Ht Htl). simpl.
    destruct (String.eqb_spec token ""); [contradiction | reflexivity]. }
  split; [now apply H|].
  intros env next s. unfold authenticateToken.
  rewrite (H scheme tail Hs Htail).
  replace ("Bearer " ++ token)%string
    with ("Bearer" ++ String " " (token ++ ""))%string
    by (simpl; now rewrite append_empty).
  rewrite (H "Bearer" "" eq_refl (or_introl eq_refl)). reflexivity.
Qed.

End Header.

(** ** The client and the server together *)

Section ClientServer.

Context {bcrypt : Bcrypt} {jwt : Jwt} {pcre : Pcre}.

Lemma authorization_token c token :
  Client.authToken c = Some token -> token <> "" -> no_space token = true ->
  bearer_token (Client.authorization c) = Some token.
Proof.
  intros Ha Hne Hsp. unfold Client.authorization. rewrite Ha. simpl.
  destruct (String.eqb_spec token ""); [contradiction|].
  now apply bearer_token_of_bearer.
Qed.

(** X20. The header that [apiCall] builds from the client's token is
    read back by the guard as that token, when the token is not empty
    and has no space.  A client without token (never logged in, or
    logged out) sends no header, and the protected routes answer it 401
    without touching the state. *)
Theorem client_token_reaches_the_guard :
  forall (c : Client.t),
    (forall token,
        Client.authToken c = Some token -> token <> "" -> no_space token = true ->
        Client.authorization c = Some ("Bearer " ++ token)
        /\ bearer_token (Client.authorization c) = Some token)
    /\ (truthy (Client.authToken c) = None ->
        Client.authorization c = None
        /\ forall env s,
             getTestResults env (Client.authorization c) s
             = (res_error 401 "Access token required", s)
             /\ getDashboardStats env (Client.authorization c) s
                = (res_error 401 "Access token required", s)
             /\ forall b,
                  postTestResult env (Client.authorization c) b s
                  = (res_error 401 "Access token required", s))
    /\ Client.authorization (Client.logout c) = None.
Proof.
  intros c. split; [|split; [|reflexivity]].
  - intros token Ha Hne Hsp. split; [|now apply authorization_token].
    unfold Client.authorization. rewrite Ha. simpl.
    destruct (String.eqb_spec token ""); [contradiction | reflexivity].
  - intros Hn.
    assert (Hauth : Client.authorization c = None)
      by (unfold Client.authorization; now rewrite Hn).
    split; [exact Hauth|]. rewrite Hauth. intros env s.
    split; [now apply guard_no_token|]. split; [now apply guard_no_token|].
    intros b. now apply guard_no_token.
Qed.

(** X21. After a successful login the client holds the issued token and
    the profile of the account.  When that token is not empty, has no
    space and verifies to the claims it was signed for, the client's
    next list of test results is answered 200 with results of that
    account only. *)
Theorem client_session_after_login :
  forall (env env' : Env) (b : LoginBody) (s s' : State),
    email_taken (lb_email b) s ->
    (forall u, In u (users (db s)) -> User.email u = lb_email b ->
               bcrypt_compare (lb_password b) (User.password u) = true) ->
    exists u,
      In u (users (db s))
      /\ fst (login env b s) = logged_in env u
      /\ let c := Client.after_login (body (fst (login env b s))) in
         Client.authToken c = Some (token_for env u)
         /\ Client.currentUser c = Some (profile u)
         /\ (token_for env u <> "" -> no_space (token_for env u) = true ->
             jwt_verify (token_for env u) JWT_SECRET (now env') = Some (claims_of u) ->
             exists results,
               getTestResults env' (Client.authorization c) s'
               = (res_json (JArr (map TestResult.toJSON results)), s')
               /\ Forall (fun r => TestResult.userId r = User._id u) results).
Proof.
  intros env env' b s s' Ht Hpw.
  destruct (login_succeeds env b s Ht Hpw) as [u [Hin [_ E]]].
  exists u. split; [exact Hin|]. rewrite E. cbn [fst].
  split; [reflexivity|]. cbv zeta.
  split; [reflexivity|]. split; [reflexivity|].
  intros Hne Hsp Hv.
  assert (Hb : bearer_token
                 (Client.authorization (Client.after_login (body (logged_in env u))))
               = Some (token_for env u))
    by (now apply authorization_token).
  rewrite (getTestResults_run _ _ _ _ _ Hb Hv).
  eexists. split; [reflexivity|].
  apply Forall_forall. intros r Hr.
  apply apply_limit_In, sort_by_In, filter_In in Hr as [_ Ho].
  unfold owned_by in Ho. simpl in Ho. lia.
Qed.

(** X22. The quiz: the client sends the chosen option index of a stored
    question to check-answer and, holding a valid token, saves the test
    result it builds from the answer.  The grade is correct exactly when
    the option index parses to the stored correct index; the saved
    result is accepted (201), belongs to the account of the token and
    has score 100 and one correct answer for a correct grade, score 0
    and none otherwise. *)
Theorem quiz_answer_is_graded_and_saved :
  forall (env : Env) (c : Client.t) (token : string) (user : Claims)
         (questionId : ObjectId) (optionIndex : string) (s : State),
    (exists q, In q (questions (db s)) /\ Question._id q = questionId) ->
    bearer_token (Client.authorization c) = Some token ->
    jwt_verify token JWT_SECRET (now env) = Some user ->
    let check := mkCheckAnswerBody questionId (Client.userAnswer optionIndex) in
    exists q correct,
      In q (questions (db s)) /\ Question._id q = questionId
      /\ checkAnswer check s = (graded q correct, s)
      /\ (correct = true <-> Js.parseInt optionIndex = Num (Question.correctAnswer q))
      /\ let saved := Client.quiz_result (body (graded q correct)) in
         let r := result_of env user saved s in
         postTestResult env (Client.authorization c) saved s
         = (result_saved r,
            mkState (set_testResults (db s) (testResults (db s) ++ [r]))
              (nextId s + 1))
         /\ TestResult.userId r = userId user
         /\ TestResult.score r = (if correct then 100 else 0)
         /\ TestResult.correctAnswers r = (if correct then 1 else 0)
         /\ TestResult.totalQuestions r = 1.
Proof.
  intros env c token user questionId optionIndex s [q0 [Hin0 Hid0]] H V check.
  destruct (find_present (fun q => Question._id q =? questionId) (questions (db s)))
    as [q [Hf [Hin Hid]]].
  { exists q0. split; [exact Hin0 | now apply Z.eqb_eq]. }
  apply Z.eqb_eq in Hid.
  exists q, (Js.strict_eq_num (Question.correctAnswer q) (Client.userAnswer optionIndex)).
  split; [exact Hin|]. split; [exact Hid|]. split.
  { unfold checkAnswer, try_catch, bind, get_db, Query.findOne, ret. simpl.
    rewrite Hf. reflexivity. }
  split.
  { unfold Client.userAnswer, Js.strict_eq_num.
    destruct (Js.parseInt optionIndex) as [n|]; split; intros E; try discriminate.
    - apply Z.eqb_eq in E. now subst.
    - injection E as ->. apply Z.eqb_refl. }
  cbv zeta.
  assert (Hq : Client.quiz_result
                 (body (graded q (Js.strict_eq_num (Question.correctAnswer q)
                                    (Client.userAnswer optionIndex))))
               = mkTestResultBody "GRE" "Verbal"
                   (if Js.strict_eq_num (Question.correctAnswer q)
                         (Client.userAnswer optionIndex) then 100 else 0) 1
                   (if Js.strict_eq_num (Question.correctAnswer q)
                         (Client.userAnswer optionIndex) then 1 else 0) (Some 2))
    by reflexivity.
  rewrite Hq. split.
  - apply postTestResult_valid with token; auto; discriminate.
  - repeat split.
Qed.

(** X23. [getRequirements] names the tests a university requires, in the
    order GRE, GMAT, IELTS, TOEFL and separated by commas; it answers
    'Check website' exactly when no test is required, and never the
    empty string. *)
Theorem getRequirements_names_required_tests :
  forall (req : University.requirements_t),
    let required :=
      map snd
        (filter fst
           [(University.gre req, "GRE"); (University.gmat req, "GMAT");
            (University.ielts req, "IELTS"); (University.toefl req, "TOEFL")]) in
    Client.getRequirements req <> ""
    /\ (Client.getRequirements req = "Check website" <-> required = [])
    /\ (required <> [] -> Client.getRequirements req = Client.join ", " required).
Proof.
  intros [[] [] [] []]; cbv zeta;
    (split; [vm_compute; discriminate|]);
    (split;
     [ vm_compute; split; intros E; (reflexivity || discriminate E)
     | vm_compute; intros E; (reflexivity || (exfalso; apply E; reflexivity)) ]).
Qed.

End ClientServer.

(** ** The dashboard against the list of results *)

Lemma sum_of_bounds {A} (f : A -> Z) (l : list A) lo hi :
  Forall (fun x => lo <= f x <= hi) l ->
  lo * Z.of_nat (length l) <= sum_of (map f l) <= hi * Z.of_nat (length l).
Proof.
  induction 1 as [|x l Hx _ IH]; simpl length; simpl map; simpl sum_of; [lia|].
  rewrite Nat2Z.inj_succ. nia.
Qed.

Section Dashboard.

Context {bcrypt : Bcrypt} {jwt : Jwt} {pcre : Pcre}.

(** X24. For one account and one state, the list of test results and
    the dashboard agree: the list holds as many results as the dashboard
    counts, up to ten. *)
Theorem list_and_dashboard_agree :
  forall (env env' : Env) (authHeader : option string) (token : string)
         (user : Claims) (s : State),
    bearer_token authHeader = Some token ->
    jwt_verify token JWT_SECRET (now env) = Some user ->
    jwt_verify token JWT_SECRET (now env') = Some user ->
    exists listed n a t,
      getTestResults env authHeader s
      = (res_json (JArr (map TestResult.toJSON listed)), s)
      /\ getDashboardStats env' authHeader s = (stats n a t, s)
      /\ Z.of_nat (length listed) = Z.min 10 n.
Proof.
  intros env env' authHeader token user s H V V'.
  rewrite (getTestResults_run _ _ _ _ _ H V).
  rewrite (getDashboardStats_run _ _ _ _ _ H V').
  eexists. eexists. eexists. eexists.
  split; [reflexivity|]. split; [reflexivity|].
  change (Query.apply_limit 10 ?l) with (firstn 10 l).
  rewrite length_firstn, sort_by_length. lia.
Qed.


End Dashboard.

(** * The properties at concrete requests *)

#[local] Existing Instances Demo.bcrypt Demo.jwt Demo.pcre.


(** C3 at alice's list in a state with two results of alice and one of
    bob. *)
Lemma getTestResults_own_newest_ten_witness :
  exists results : list TestResult.t,
    getTestResults Demo.env0 (Some "Bearer alice@example.com.token") Demo.with_results
    = (res_json (JArr (map TestResult.toJSON results)), Demo.with_results)
    /\ Forall (fun r => TestResult.userId r = 1) results
    /\ (length results <= 10)%nat.
Proof.
  destruct (getTestResults_own_newest_ten (jwt := Demo.jwt) Demo.env0
              "Bearer alice@example.com.token" "alice@example.com.token"
              Demo.alice Demo.with_results eq_refl eq_refl)
    as [results [H1 [H2 [H3 _]]]].
  exists results. split; [exact H1|]. split; [exact H2 | exact H3].
Defined.









(** C9 at the list of test results: no header, a header without token,
    and a token that does not verify. *)
Lemma token_guard_rejects_before_handler_witness :
  getTestResults Demo.env0 None Demo.with_results
  = (res_error 401 "Access token required", Demo.with_results)
  /\ getDashboardStats Demo.env0 (Some "Bearer") Demo.with_results
     = (res_error 401 "Access token required", Demo.with_results)
  /\ postTestResult Demo.env0 (Demo.bearer "forged")
       (mkTestResultBody "GRE" "Verbal" 100 1 1 (Some 2)) Demo.with_results
     = (res_error 403 "Invalid or expired token", Demo.with_results).
Proof.
  split; [|split].
  - apply (token_guard_rejects_before_handler (jwt := Demo.jwt) Demo.env0 None
             Demo.with_results (res_error 401 "Access token required")).
    left. split; reflexivity.
  - apply (token_guard_rejects_before_handler (jwt := Demo.jwt) Demo.env0
             (Some "Bearer") Demo.with_results
             (res_error 401 "Access token required")).
    left. split; reflexivity.
  - apply (token_guard_rejects_before_handler (jwt := Demo.jwt) Demo.env0
             (Demo.bearer "forged") Demo.with_results
             (res_error 403 "Invalid or expired token")).
    right. exists "forged". repeat split; reflexivity.
Defined.

(** * The further properties at concrete requests *)

(** X1 at alice's login with her password. *)
Lemma login_issues_token_and_profile_witness :
  exists u,
    login Demo.env0 (mkLoginBody "alice@example.com" "s3cret") Demo.alice_registered
    = (logged_in Demo.env0 u, Demo.alice_registered)
    /\ User.email u = "alice@example.com".
Proof.
  destruct (login_issues_token_and_profile (bcrypt := Demo.bcrypt) (jwt := Demo.jwt) Demo.env0
              (mkLoginBody "alice@example.com" "s3cret") Demo.alice_registered)
    as [u [_ [He [E _]]]].
  - eexists. split; [left; reflexivity | reflexivity].
  - intros u Hin He. vm_compute in Hin. destruct Hin as [<-|[]]. reflexivity.
  - exists u. split; [exact E | exact He].
Defined.



(** X4 at the limit '0'. *)
Lemma getQuestions_limit_zero_is_no_limit_witness :
  exists docs,
    getQuestions "GRE" "Verbal" (Some "0") None Demo.seeded
    = (res_json (JArr (map public_question docs)), Demo.seeded)
    /\ Permutation docs
         (filter (question_matches "GRE" "Verbal" None) (questions (db Demo.seeded))).
Proof.
  apply (getQuestions_limit_zero_is_no_limit "GRE" "Verbal" "0" None Demo.seeded).
  reflexivity.
Defined.

(** X5 at the header 'Basic <alice's token>'. *)
Lemma guard_ignores_the_scheme_witness :
  bearer_token (Some "Basic alice@example.com.token") = Some "alice@example.com.token".
Proof.
  apply (proj1 (guard_ignores_the_scheme "Basic" "alice@example.com.token" ""
                  eq_refl eq_refl ltac:(discriminate) (or_introl eq_refl))).
Defined.

(** X6 at a list of universities followed by a failed login. *)
Lemma reading_routes_change_nothing_witness :
  serve [(Demo.env0, GetUniversities None (Some "ox"));
         (Demo.env0, PostLogin (mkLoginBody "nobody@example.com" "x"))]
    Demo.seeded
  = Demo.seeded.
Proof.
  apply reading_routes_change_nothing.
  repeat constructor.
Defined.

(** X8 at an empty search string. *)
Lemma getUniversities_unfiltered_lists_all_witness :
  exists docs,
    getUniversities None (Some "") Demo.seeded
    = (res_json (JArr (map University.toJSON docs)), Demo.seeded)
    /\ Permutation docs (universities (db Demo.seeded))
    /\ StronglySorted by_ranking docs.
Proof.
  apply (getUniversities_unfiltered_lists_all None (Some "") Demo.seeded);
    reflexivity.
Defined.

(** X10, X11 and X12 from the empty database, after alice registers
    twice and the samples are seeded. *)
Lemma emails_stay_unique_witness :
  unique_emails
    (serve [(Demo.env0, PostRegister Demo.alice_body);
            (Demo.env0, PostRegister Demo.alice_body);
            (Demo.env0, PostSeedData)] Demo.empty).
Proof.
  apply emails_stay_unique. constructor.
Defined.

Lemma stored_documents_stay_valid_witness :
  schema_valid
    (serve [(Demo.env0, PostRegister Demo.alice_body);
            (Demo.env0, PostRegister Demo.nameless_body);
            (Demo.env0, PostSeedData)] Demo.empty).
Proof.
  apply stored_documents_stay_valid. repeat split; constructor.
Defined.

Lemma no_route_creates_an_admin_witness :
  no_admin
    (serve [(Demo.env0, PostRegister Demo.alice_body);
            (Demo.env0, PostSeedData)] Demo.empty).
Proof.
  apply (proj1 (no_route_creates_an_admin
                  [(Demo.env0, PostRegister Demo.alice_body);
                   (Demo.env0, PostSeedData)] Demo.empty ltac:(constructor))).
Defined.

(** X13 at alice's registration in the empty database. *)
Lemma register_then_login_witness :
  login Demo.env0 (mkLoginBody "alice@example.com" "s3cret") Demo.alice_registered
  = (logged_in Demo.env0 (account_of Demo.env0 Demo.alice_body Demo.empty),
     Demo.alice_registered).
Proof.
  apply (register_then_login (bcrypt := Demo.bcrypt) (jwt := Demo.jwt) Demo.env0 Demo.env0 Demo.alice_body Demo.empty).
  - intros [u [[] _]].
  - discriminate.
  - discriminate.
  - reflexivity.
Defined.

(** X14 at a submission of alice at time 1000, her stored results being
    of times 500 and 700. *)
Lemma submitted_result_is_listed_first_witness :
  exists rest,
    getTestResults Demo.env0 (Demo.bearer "alice@example.com.token")
      (snd (postTestResult Demo.env0 (Demo.bearer "alice@example.com.token")
              (mkTestResultBody "GRE" "Verbal" 100 1 1 (Some 2)) Demo.with_results))
    = (res_json
         (JArr (map TestResult.toJSON
                  (result_of Demo.env0 Demo.alice
                     (mkTestResultBody "GRE" "Verbal" 100 1 1 (Some 2))
                     Demo.with_results :: rest))),
       snd (postTestResult Demo.env0 (Demo.bearer "alice@example.com.token")
              (mkTestResultBody "GRE" "Verbal" 100 1 1 (Some 2)) Demo.with_results))
    /\ incl rest (results_of 1 Demo.with_results).
Proof.
  apply (submitted_result_is_listed_first (jwt := Demo.jwt) Demo.env0 Demo.env0
           (Demo.bearer "alice@example.com.token") "alice@example.com.token"
           Demo.alice (mkTestResultBody "GRE" "Verbal" 100 1 1 (Some 2))
           Demo.with_results eq_refl eq_refl eq_refl).
  - discriminate.
  - discriminate.
  - intros x Hx. vm_compute in Hx. destruct Hx as [<-|[<-|[]]]; reflexivity.
Defined.


(** X16 at alice's list. *)
Lemma getTestResults_most_recent_witness :
  exists listed left_out,
    getTestResults Demo.env0 (Demo.bearer "alice@example.com.token") Demo.with_results
    = (res_json (JArr (map TestResult.toJSON listed)), Demo.with_results)
    /\ Permutation (results_of 1 Demo.with_results) (listed ++ left_out)
    /\ length listed = 2%nat.
Proof.
  destruct (getTestResults_most_recent (jwt := Demo.jwt) Demo.env0
              (Demo.bearer "alice@example.com.token") "alice@example.com.token"
              Demo.alice Demo.with_results eq_refl eq_refl)
    as [listed [left_out [E [P [_ L]]]]].
  exists listed, left_out. split; [exact E|]. split; [exact P | exact L].
Defined.

(** X17 at the administrator adding MIT to the seeded catalogue. *)
Lemma added_university_is_listed_witness :
  exists docs,
    getUniversities (Some "USA") None
      (snd (postUniversity Demo.env0 (Demo.bearer "root@example.com.token")
              Demo.mit Demo.seeded))
    = (res_json (JArr (map University.toJSON docs)),
       snd (postUniversity Demo.env0 (Demo.bearer "root@example.com.token")
              Demo.mit Demo.seeded))
    /\ In (university_of Demo.mit Demo.seeded) docs.
Proof.
  apply (added_university_is_listed (jwt := Demo.jwt) Demo.env0
           (Demo.bearer "root@example.com.token") "root@example.com.token"
           Demo.root Demo.mit Demo.seeded eq_refl eq_refl eq_refl).
  repeat split; discriminate.
Defined.

(** X18 at the default list of GRE Verbal questions. *)
Lemma listed_questions_can_be_checked_witness :
  exists docs,
    getQuestions "GRE" "Verbal" None None Demo.seeded
    = (res_json (JArr (map public_question docs)), Demo.seeded)
    /\ docs <> [].
Proof.
  destruct (listed_questions_can_be_checked "GRE" "Verbal" None None Demo.seeded 10
              eq_refl) as [docs [E _]].
  exists docs. split; [exact E|].
  intros ->. vm_compute in E. discriminate E.
Defined.

(** X20 at a client that holds alice's token. *)
Lemma client_token_reaches_the_guard_witness :
  bearer_token (Client.authorization (Client.mk None (Some "alice@example.com.token")))
  = Some "alice@example.com.token"
  /\ Client.authorization (Client.mk None (Some "")) = None.
Proof.
  split.
  - apply (proj1 (client_token_reaches_the_guard
                    (Client.mk None (Some "alice@example.com.token")))
             "alice@example.com.token" eq_refl ltac:(discriminate) eq_refl).
  - apply (proj1 (proj2 (client_token_reaches_the_guard (Client.mk None (Some ""))))
             eq_refl).
Defined.

(** X21 at alice's login followed by her list of results. *)
Lemma client_session_after_login_witness :
  exists u,
    fst (login Demo.env0 (mkLoginBody "alice@example.com" "s3cret")
           Demo.alice_registered)
    = logged_in Demo.env0 u
    /\ exists results,
        getTestResults Demo.env0
          (Client.authorization
             (Client.after_login
                (body (fst (login Demo.env0
                              (mkLoginBody "alice@example.com" "s3cret")
                              Demo.alice_registered)))))
          Demo.with_results
        = (res_json (JArr (map TestResult.toJSON results)), Demo.with_results)
        /\ Forall (fun r => TestResult.userId r = User._id u) results.
Proof.
  destruct (client_session_after_login (bcrypt := Demo.bcrypt) (jwt := Demo.jwt) Demo.env0 Demo.env0
              (mkLoginBody "alice@example.com" "s3cret")
              Demo.alice_registered Demo.with_results)
    as [u [Hin [E [_ [_ H]]]]].
  - eexists. split; [left; reflexivity | reflexivity].
  - intros u Hin He. vm_compute in Hin. destruct Hin as [<-|[]]. reflexivity.
  - exists u. split; [exact E|].
    vm_compute in Hin. destruct Hin as [<-|[]].
    apply H; [discriminate | reflexivity | reflexivity].
Defined.

(** X22 at the first sample question (id 4, correct index 2) and the
    option index '2'. *)
Lemma quiz_answer_is_graded_and_saved_witness :
  exists q correct,
    checkAnswer (mkCheckAnswerBody 4 (Client.userAnswer "2")) Demo.seeded
    = (graded q correct, Demo.seeded)
    /\ (correct = true <-> Js.parseInt "2" = Num (Question.correctAnswer q)).
Proof.
  destruct (quiz_answer_is_graded_and_saved (jwt := Demo.jwt) Demo.env0
              (Client.mk None (Some "alice@example.com.token"))
              "alice@example.com.token" Demo.alice 4 "2" Demo.seeded)
    as [q [correct [_ [_ [E [Hc _]]]]]].
  - eexists. split; [left; reflexivity | reflexivity].
  - reflexivity.
  - reflexivity.
  - exists q, correct. split; [exact E | exact Hc].
Defined.

(** X24 and X25 at alice's dashboard: two results, scores 80 and 90. *)
Lemma list_and_dashboard_agree_witness :
  exists listed n a t,
    getTestResults Demo.env0 (Demo.bearer "alice@example.com.token") Demo.with_results
    = (res_json (JArr (map TestResult.toJSON listed)), Demo.with_results)
    /\ getDashboardStats Demo.env0 (Demo.bearer "alice@example.com.token")
         Demo.with_results
       = (stats n a t, Demo.with_results)
    /\ Z.of_nat (length listed) = Z.min 10 n.
Proof.
  apply (list_and_dashboard_agree (jwt := Demo.jwt) Demo.env0 Demo.env0
           (Demo.bearer "alice@example.com.token") "alice@example.com.token"
           Demo.alice Demo.with_results eq_refl eq_refl eq_refl).
Defined.

